(** * Car Insurance Validator: the upload / validation / report core of
    backend/app.py, embedded in Rocq.

    The Python module is a FastAPI application over three SQLite tables, a
    directory of uploaded files and a vision model reached through
    [ollama.chat].  Everything that the handlers read from the outside
    world at run time (the model's reply, a storage fault, the value of
    [uuid.uuid4()], the clock) is an explicit argument of the embedded
    handler, so each handler is an executable function on a [world]. *)

From Stdlib Require Import Ascii String NArith ZArith List Bool Lia.
From stdpp Require Import base option list strings gmap fin_maps pretty.
Import ListNotations.

Open Scope string_scope.

(** ** Python strings

    A [str] is modelled by [string]; a character is a code point of the
    Latin-1 block (0..255), on which [str.lower] and [str.strip] act as
    written below. *)

Module PyStr.

(** [str.lower] on one code point: A-Z and the accented capitals
    U+00C0..U+00DE (the multiplication sign U+00D7 apart) move up by 32. *)
Definition lower_char (c : ascii) : ascii :=
  let n := N_of_ascii c in
  if ((65 <=? n) && (n <=? 90) || (192 <=? n) && (n <=? 222) && negb (n =? 215))%N
  then ascii_of_N (n + 32) else c.

(** The capital of one code point, where it is a single code point of the
    block: a-z and the accented small letters U+00E0..U+00FE (the division
    sign U+00F7 apart) move down by 32.  The sharp s (U+00DF) is dealt
    with in [capitalize]; the micro sign (U+00B5) and the y with diaeresis
    (U+00FF) have their capitals outside the block and are kept. *)
Definition upper_char (c : ascii) : ascii :=
  let n := N_of_ascii c in
  if ((97 <=? n) && (n <=? 122) || (224 <=? n) && (n <=? 254) && negb (n =? 247))%N
  then ascii_of_N (n - 32) else c.

(** [str.isspace] on one code point. *)
Definition isspace (c : ascii) : bool :=
  let n := N_of_ascii c in
  ((9 <=? n) && (n <=? 13) || (28 <=? n) && (n <=? 31)
   || (n =? 32) || (n =? 133) || (n =? 160))%N.

Fixpoint lower (s : string) : string :=
  match s with
  | EmptyString => EmptyString
  | String c s' => String (lower_char c) (lower s')
  end.

Fixpoint lstrip (s : string) : string :=
  match s with
  | EmptyString => EmptyString
  | String c s' => if isspace c then lstrip s' else s
  end.

Fixpoint rstrip (s : string) : string :=
  match s with
  | EmptyString => EmptyString
  | String c s' =>
      match rstrip s' with
      | EmptyString => if isspace c then EmptyString else String c EmptyString
      | r => String c r
      end
  end.

Definition strip (s : string) : string := rstrip (lstrip s).

(** [str.capitalize]: first character title-cased (a sharp s becomes
    "Ss"), the rest lower-cased. *)
Definition capitalize (s : string) : string :=
  match s with
  | EmptyString => EmptyString
  | String c s' =>
      if (N_of_ascii c =? 223)%N then String "S" (String "s" (lower s'))
      else String (upper_char c) (lower s')
  end.

(** [s.startswith(p)]. *)
Fixpoint startswith (p s : string) : bool :=
  match p, s with
  | EmptyString, _ => true
  | String a p', String b s' => Ascii.eqb a b && startswith p' s'
  | String _ _, EmptyString => false
  end.

(** [p in s]: some position of [s] starts with [p]. *)
Fixpoint contains (p s : string) : bool :=
  startswith p s ||
  match s with
  | EmptyString => false
  | String _ s' => contains p s'
  end.

(** [s.rfind(c)] for a single character, as the index of the last
    occurrence, [None] for Python's -1. *)
Fixpoint rfind (c : ascii) (s : string) : option nat :=
  match s with
  | EmptyString => None
  | String a s' =>
      match rfind c s' with
      | Some i => Some (S i)
      | None => if Ascii.eqb a c then Some 0 else None
      end
  end.

(** The slices [s[:n]] and [s[n:]]. *)
Fixpoint take (n : nat) (s : string) : string :=
  match n, s with
  | S n', String c s' => String c (take n' s')
  | _, _ => EmptyString
  end.

Fixpoint drop (n : nat) (s : string) : string :=
  match n, s with
  | S n', String _ s' => drop n' s'
  | _, _ => s
  end.

(** [s[i:j]] all dots: the "leading dots" test of [splitext]. *)
Fixpoint all_char (c : ascii) (s : string) : bool :=
  match s with
  | EmptyString => true
  | String a s' => Ascii.eqb a c && all_char c s'
  end.

(** [c in s] for one character. *)
Definition has_char (c : ascii) (s : string) : bool :=
  existsb (Ascii.eqb c) (list_ascii_of_string s).

Definition squote : ascii := ascii_of_N 39.
Definition dquote : ascii := ascii_of_N 34.
Definition backslash : ascii := ascii_of_N 92.

(** [str.isprintable] on one code point: the controls, the no-break space
    and the soft hyphen are not printable. *)
Definition isprintable (c : ascii) : bool :=
  let n := N_of_ascii c in
  negb ((n <? 32) || (127 <=? n) && (n <=? 160) || (n =? 173))%N.

Definition hex_digit (n : N) : ascii :=
  match String.get (N.to_nat n) "0123456789abcdef" with
  | Some c => c
  | None => "0"%char
  end.

(** One character of a [repr]: the quote in use and the backslash get a
    backslash, tab, newline and return their letter, any other character
    that is not printable its two hexadecimal digits. *)
Definition repr_char (quote c : ascii) : string :=
  let n := N_of_ascii c in
  if Ascii.eqb c quote || Ascii.eqb c backslash then String backslash (String c EmptyString)
  else if (n =? 9)%N then String backslash "t"
  else if (n =? 10)%N then String backslash "n"
  else if (n =? 13)%N then String backslash "r"
  else if isprintable c then String c EmptyString
  else String backslash
         (String "x" (String (hex_digit (n / 16)) (String (hex_digit (n mod 16)) EmptyString))).

Fixpoint repr_body (quote : ascii) (s : string) : string :=
  match s with
  | EmptyString => EmptyString
  | String c s' => repr_char quote c ++ repr_body quote s'
  end.

(** [repr(s)]: between apostrophes, or between double quotes when [s]
    holds an apostrophe and no double quote. *)
Definition repr (s : string) : string :=
  let quote := if has_char squote s && negb (has_char dquote s) then dquote else squote in
  String quote (repr_body quote s ++ String quote EmptyString).

End PyStr.

(** ** os.path (POSIX flavour) *)

Module OsPath.

(** [os.path.splitext(p)]: the extension starts at the last dot, provided
    that dot comes after the last slash and is not one of the leading
    dots of the final component. *)
Definition splitext (p : string) : string * string :=
  let filenameIndex :=
    match PyStr.rfind "/" p with Some i => S i | None => 0 end in
  match PyStr.rfind "." p with
  | Some dotIndex =>
      if (filenameIndex <=? dotIndex)%nat &&
         negb (PyStr.all_char "." (PyStr.take (dotIndex - filenameIndex)
                                              (PyStr.drop filenameIndex p)))
      then (PyStr.take dotIndex p, PyStr.drop dotIndex p)
      else (p, EmptyString)
  | None => (p, EmptyString)
  end.

(** [os.path.join(a, b)] for two components. *)
Definition join (a b : string) : string :=
  if PyStr.startswith "/" b then b
  else if (a =? "")%string || PyStr.startswith "/" (String.rev a)
       then a ++ b
       else a ++ "/" ++ b.

End OsPath.

(** ** Exceptions, outcomes and the handler monad *)

(** The exceptions that can travel through the handlers.  [HTTPException]
    is FastAPI's; every other [Exception] is kept by its class name and
    the text that [str(e)] gives. *)
Inductive exn : Type :=
  | HTTPException (status_code : nat) (detail : string)
  | PyError (cls : string) (msg : string).

(** [str(e)]. *)
Definition str_exn (e : exn) : string :=
  match e with
  | HTTPException status_code detail => pretty status_code ++ ": " ++ detail
  | PyError _ msg => msg
  end.

Inductive outcome (A : Type) : Type :=
  | Returns (a : A)
  | Raises (e : exn).
Arguments Returns {A} a.
Arguments Raises {A} e.

(** A computation over a state [S]: it ends by returning or by raising, and
    either way leaves a state behind (effects performed before a [raise]
    stay performed). *)
Definition M (S A : Type) : Type := S -> outcome A * S.

Definition ret {S A} (a : A) : M S A := fun s => (Returns a, s).

Definition raise {S A} (e : exn) : M S A := fun s => (Raises e, s).

Definition bind {S A B} (m : M S A) (k : A -> M S B) : M S B :=
  fun s =>
    match m s with
    | (Returns a, s') => k a s'
    | (Raises e, s') => (Raises e, s')
    end.

(** [try: body  except Exception as e: handler(e)]. *)
Definition try_except {S A} (body : M S A) (handler : exn -> M S A) : M S A :=
  fun s =>
    match body s with
    | (Returns a, s') => (Returns a, s')
    | (Raises e, s') => handler e s'
    end.

Definition gets {S A} (f : S -> A) : M S A := fun s => (Returns (f s), s).

Definition modify {S} (f : S -> S) : M S unit := fun s => (Returns tt, f s).

Declare Scope handler_scope.
Delimit Scope handler_scope with handler.
Notation "x <- m ;; k" := (bind m (fun x => k))
  (at level 100, m at next level, right associativity) : handler_scope.
Notation "m ;; k" := (bind m (fun _ => k))
  (at level 100, right associativity) : handler_scope.
Open Scope handler_scope.

(** ** Persistent state: the database, the file store, the model's call log *)

(** A row of [submissions], without its primary key [id] (the key of the
    table map). *)
Record submission : Type := mkSubmission {
  user_id : string;
  vehicle_make : string;
  vehicle_model : string;
  vehicle_year : Z;
  status : string;
  created_at : string
}.

(** A row of [submission_images]. *)
Record submission_image : Type := mkSubmissionImage {
  id : string;
  submission_id : string;
  image_type : string;
  image_path : string;
  validation_result : string;
  validation_reason : string
}.

(** The two tables the handlers touch.  [submissions] is keyed by its
    primary key; [submission_images] keeps the rows in insertion (rowid)
    order, the order in which an unordered [SELECT] returns them.  The
    foreign keys of the schema are not enforced: the connection never
    issues [PRAGMA foreign_keys = ON], SQLite's default being off. *)
Record database : Type := mkDatabase {
  submissions : gmap string submission;
  submission_images : list submission_image
}.

(** One drawing instruction on a report page. *)
Inductive draw_op : Type :=
  | SetFont (name : string) (size : Z)
  | DrawString (x y : Z) (text : string)
  | DrawImage (path : string) (x y : Z) (width height : Z).

(** What a path of the file store holds: the raw bytes of an upload, or a
    saved report as its pages of drawing instructions. *)
Inductive file_data : Type :=
  | Bytes (data : list Byte.byte)
  | Pdf (pages : list (list draw_op)).

(** One recorded call of [ollama.chat]. *)
Record chat_call : Type := mkChatCall {
  call_model : string;
  call_content : string;
  call_images : list string
}.

(** The file store is keyed by the path exactly as the code hands it to
    [open]: two spellings that the file system resolves to one file (a
    [..] component, a doubled slash, a link) are two keys here.  The paths
    that the handlers build are in one spelling as long as the submission
    id holds no slash, which the route's path parameter cannot. *)
Record world : Type := mkWorld {
  files : gmap string file_data;
  db : database;
  chat_log : list chat_call
}.

Definition set_files (f : gmap string file_data -> gmap string file_data) (w : world) : world :=
  {| files := f (files w); db := db w; chat_log := chat_log w |}.

Definition set_db (d : database) (w : world) : world :=
  {| files := files w; db := d; chat_log := chat_log w |}.

Definition log_chat (c : chat_call) (w : world) : world :=
  {| files := files w; db := db w; chat_log := chat_log w ++ [c] |}.

(** The state after [init_db()] on a new database file. *)
Definition empty_db : database := {| submissions := ∅; submission_images := [] |}.

Definition initial_world : world := {| files := ∅; db := empty_db; chat_log := [] |}.

(** [with get_db() as conn: body]: the body runs in one transaction on a
    new connection; leaving the block normally commits, leaving it by an
    exception rolls back. *)
Definition with_db {A} (body : M database A) : M world A :=
  fun w =>
    match body (db w) with
    | (Returns a, d') => (Returns a, set_db d' w)
    | (Raises e, _) => (Raises e, w)
    end.

Module Sql.

(** What sqlite3 can bind as an INTEGER: a signed 64-bit value. *)
Definition fits_integer (z : Z) : bool :=
  ((- 2 ^ 63 <=? z) && (z <=? 2 ^ 63 - 1))%Z.

(** [INSERT INTO submissions ... VALUES (...)]: the parameters are bound
    first, and an [int] outside the 64-bit range cannot be; then the
    primary key must be new. *)
Definition insert_submission (sid : string) (row : submission) : M database unit :=
  fun d =>
    if negb (fits_integer (vehicle_year row))
    then (Raises (PyError "OverflowError" "Python int too large to convert to SQLite INTEGER"), d)
    else
      match submissions d !! sid with
      | Some _ => (Raises (PyError "IntegrityError" "UNIQUE constraint failed: submissions.id"), d)
      | None => (Returns tt, {| submissions := <[sid := row]> (submissions d);
                               submission_images := submission_images d |})
      end.

(** [INSERT INTO submission_images ... VALUES (...)]. *)
Definition insert_submission_image (row : submission_image) : M database unit :=
  fun d =>
    if existsb (fun r => String.eqb (id r) (id row)) (submission_images d)
    then (Raises (PyError "IntegrityError" "UNIQUE constraint failed: submission_images.id"), d)
    else (Returns tt, {| submissions := submissions d;
                         submission_images := submission_images d ++ [row] |}).

(** [SELECT * FROM submission_images WHERE submission_id = ?]. *)
Definition images_of (sid : string) (d : database) : list submission_image :=
  List.filter (fun r => String.eqb (submission_id r) sid) (submission_images d).

Definition select_images (sid : string) : M database (list submission_image) :=
  gets (images_of sid).

(** [SELECT COUNT( * ) as count FROM submission_images WHERE submission_id = ?]. *)
Definition count_images (sid : string) : M database nat :=
  gets (fun d => length (images_of sid d)).

(** [SELECT * FROM submissions WHERE id = ?], then [fetchone()]. *)
Definition select_submission (sid : string) : M database (option submission) :=
  gets (fun d => submissions d !! sid).

Definition with_status (st : string) (row : submission) : submission :=
  {| user_id := user_id row; vehicle_make := vehicle_make row;
     vehicle_model := vehicle_model row; vehicle_year := vehicle_year row;
     status := st; created_at := created_at row |}.

(** [UPDATE submissions SET status = ? WHERE id = ?]: a missing id
    matches no row and changes nothing. *)
Definition update_status (st sid : string) : M database unit :=
  modify (fun d => {| submissions := alter (with_status st) sid (submissions d);
                      submission_images := submission_images d |}).

End Sql.

(** ** Configuration *)

Definition UPLOAD_FOLDER : string := "uploads".

Record image_requirement : Type := mkRequirement {
  type : string;
  label : string;
  description : string
}.

Definition IMAGE_REQUIREMENTS : list image_requirement := [
  {| type := "front"; label := "Front View"; description := "Clear view of the front of the vehicle" |};
  {| type := "back"; label := "Rear View"; description := "Clear view of the rear of the vehicle" |};
  {| type := "left"; label := "Left Side"; description := "Side view showing the left side of the vehicle" |};
  {| type := "right"; label := "Right Side"; description := "Side view showing the right side of the vehicle" |};
  {| type := "engine"; label := "Engine Bay"; description := "Clear view of the engine compartment" |};
  {| type := "dashboard"; label := "Dashboard"; description := "Showing odometer reading" |};
  {| type := "vin"; label := "VIN Plate"; description := "Clear photo of the vehicle identification number" |};
  {| type := "registration"; label := "Registration"; description := "Current vehicle registration document" |}
].

(** ** The vision model *)

Record chat_message : Type := mkChatMessage { content : string }.

(** What [ollama.chat] hands back: [response['message']['content']] is the
    model's text. *)
Record chat_response : Type := mkChatResponse { message : chat_message }.

(** What one call of the model does: it returns a response, or an
    exception of class [cls] with text [msg] leaves the call or the
    subscripting of its result (a response without the expected shape). *)
Inductive chat_reply : Type :=
  | ChatReturns (response : chat_response)
  | ChatRaises (cls msg : string).

Definition ollama_chat (reply : chat_reply) (model content : string) (images : list string)
  : M world chat_response :=
  modify (log_chat {| call_model := model; call_content := content; call_images := images |}) ;;
  match reply with
  | ChatReturns response => ret response
  | ChatRaises cls msg => raise (PyError cls msg)
  end.

(** The [prompts] dict of [validate_image_with_ai]. *)
Definition prompts : list (string * string) := [
  ("front", "Does this image clearly show the entire front of a vehicle? Check for: full view, no obstructions, good lighting.");
  ("back", "Does this image clearly show the entire rear of a vehicle? Check for: full view, no obstructions, visible license plate.");
  ("left", "Does this image show the complete left side of a vehicle? Check for: full side profile, no obstructions.");
  ("right", "Does this image show the complete right side of a vehicle? Check for: full side profile, no obstructions.");
  ("engine", "Does this image clearly show the engine compartment? Check for: clear view of engine components.");
  ("dashboard", "Does this image show the vehicle dashboard with visible odometer reading? Check for: clear numbers.");
  ("vin", "Does this image show a vehicle's VIN plate with readable characters? Check for: all characters legible.");
  ("registration", "Does this image show a current vehicle registration document? Check for: readable text, current dates.")
].

Fixpoint dict_lookup (d : list (string * string)) (k : string) : option string :=
  match d with
  | [] => None
  | (k', v) :: d' => if String.eqb k' k then Some v else dict_lookup d' k
  end.

(** [d[k]]: a missing key raises [KeyError], whose text is the key's repr. *)
Definition dict_getitem {S} (d : list (string * string)) (k : string) : M S string :=
  match dict_lookup d k with
  | Some v => ret v
  | None => raise (PyError "KeyError" (PyStr.repr k))
  end.

(** The dict [{"valid": ..., "reason": ...}] that the classifier returns. *)
Record verdict : Type := mkVerdict {
  valid : bool;
  reason : string
}.

Definition validate_image_with_ai (reply : chat_reply) (image_path image_type : string)
  : M world verdict :=
  try_except
    (prompt <- dict_getitem prompts image_type ;;
     response <- ollama_chat reply "llava:latest" prompt [image_path] ;;
     let content := PyStr.strip (PyStr.lower (content (message response))) in
     ret {| valid := PyStr.contains "yes" content || PyStr.contains "valid" content;
            reason := if PyStr.contains "no" content || PyStr.contains "invalid" content
                      then content else "Valid image" |})
    (fun e => ret {| valid := false; reason := "Validation error: " ++ str_exn e |}).

(** ** File storage *)

(** What the storage does on one [open(filepath, "wb")] / [write]: nothing
    unusual, a failure of [open] (the file is untouched), or a failure
    after the file was truncated and [written] bytes went out. *)
Inductive storage_fault : Type :=
  | NoFault
  | OpenFails (msg : string)
  | WriteFails (msg : string) (written : nat).

(** [with open(filepath, "wb") as buffer: buffer.write(data)]. *)
Definition open_write (fault : storage_fault) (filepath : string) (data : list Byte.byte)
  : M world unit :=
  match fault with
  | NoFault => modify (set_files <[filepath := Bytes data]>)
  | OpenFails msg => raise (PyError "OSError" msg)
  | WriteFails msg written =>
      modify (set_files <[filepath := Bytes (firstn written data)]>) ;;
      raise (PyError "OSError" msg)
  end.

(** ** POST /api/submissions/{submission_id}/upload *)

Record UploadFile : Type := mkUploadFile {
  filename : string;
  file_bytes : list Byte.byte
}.

(** What the outside world contributes to one upload. *)
Record upload_env : Type := mkUploadEnv {
  storage : storage_fault;
  reply : chat_reply;
  image_uuid4 : string
}.

(** The JSON body of a successful upload. *)
Record upload_response : Type := mkUploadResponse {
  r_id : string;
  r_valid : bool;
  r_reason : string;
  r_image_url : string
}.

(** [any(req['type'] == image_type for req in IMAGE_REQUIREMENTS)]. *)
Definition known_image_type (image_type : string) : bool :=
  existsb (fun req => String.eqb (type req) image_type) IMAGE_REQUIREMENTS.

(** [filename] and [filepath] as [upload_image] computes them. *)
Definition upload_filename (submission_id image_type : string) (file : UploadFile) : string :=
  let file_ext := snd (OsPath.splitext (filename file)) in
  submission_id ++ "_" ++ image_type ++ file_ext.

Definition upload_filepath (submission_id image_type : string) (file : UploadFile) : string :=
  OsPath.join UPLOAD_FOLDER (upload_filename submission_id image_type file).

Definition upload_image (env : upload_env) (submission_id image_type : string) (file : UploadFile)
  : M world upload_response :=
  (* Validate image type *)
  if negb (known_image_type image_type)
  then raise (HTTPException 400 "Invalid image type")
  else
    (* Save file *)
    let filename := upload_filename submission_id image_type file in
    let filepath := upload_filepath submission_id image_type file in
    open_write (storage env) filepath (file_bytes file) ;;
    (* Validate with AI *)
    validation <- validate_image_with_ai (reply env) filepath image_type ;;
    (* Save to database *)
    let image_id := image_uuid4 env in
    with_db
      (Sql.insert_submission_image
         {| id := image_id; submission_id := submission_id; image_type := image_type;
            image_path := filepath;
            validation_result := if valid validation then "yes" else "no";
            validation_reason := reason validation |} ;;
       (* Check if submission is complete *)
       count <- Sql.count_images submission_id ;;
       if (length IMAGE_REQUIREMENTS <=? count)%nat
       then Sql.update_status "complete" submission_id
       else ret tt) ;;
    ret {| r_id := image_id; r_valid := valid validation; r_reason := reason validation;
           r_image_url := "/uploads/" ++ filename |}.

(** ** POST /api/submissions *)

Module Body.
(** The request model [SubmissionCreate]. *)
Record SubmissionCreate : Type := mkSubmissionCreate {
  vehicle_make : string;
  vehicle_model : string;
  vehicle_year : Z
}.
End Body.

(** What the outside world contributes to one creation: [uuid.uuid4()] and
    [datetime.now().isoformat()]. *)
Record create_env : Type := mkCreateEnv {
  submission_uuid4 : string;
  now_isoformat : string
}.

Record create_response : Type := mkCreateResponse {
  c_id : string;
  c_status : string;
  c_required_images : list image_requirement
}.

(** [token] is what [oauth2_scheme] extracted from the request; nothing
    checks it. *)
Definition create_submission (env : create_env) (data : Body.SubmissionCreate) (token : string)
  : M world create_response :=
  let submission_id := submission_uuid4 env in
  let created_at := now_isoformat env in
  with_db
    (Sql.insert_submission submission_id
       {| user_id := token; vehicle_make := Body.vehicle_make data;
          vehicle_model := Body.vehicle_model data; vehicle_year := Body.vehicle_year data;
          status := "pending"; created_at := created_at |}) ;;
  ret {| c_id := submission_id; c_status := "pending"; c_required_images := IMAGE_REQUIREMENTS |}.

(** ** GET /api/submissions/{submission_id}/report *)

(** [reportlab.lib.pagesizes.letter], in points. *)
Definition letter : Z * Z := (612, 792)%Z.

(** A [canvas.Canvas]: the pages already shown and the page being drawn. *)
Record canvas : Type := mkCanvas {
  shown : list (list draw_op);
  current : list draw_op
}.

Module Canvas.
Definition new : canvas := {| shown := []; current := [] |}.

Definition draw (op : draw_op) (c : canvas) : canvas :=
  {| shown := shown c; current := current c ++ [op] |}.

Definition showPage (c : canvas) : canvas :=
  {| shown := shown c ++ [current c]; current := [] |}.

(** The pages that [save()] writes: a page in progress is shown first. *)
Definition saved_pages (c : canvas) : list (list draw_op) :=
  match current c with
  | [] => shown c
  | _ :: _ => shown c ++ [current c]
  end.
End Canvas.

(** [ImageReader(path)] succeeds when the path holds uploaded bytes that
    the imaging library [is_image] can decode. *)
Definition image_readable (is_image : list Byte.byte -> bool)
    (fs : gmap string file_data) (path : string) : bool :=
  match fs !! path with
  | Some (Bytes data) => is_image data
  | _ => false
  end.

(** One turn of the [for img in images] loop, on the canvas and
    [y_position]. *)
Definition report_block (is_image : list Byte.byte -> bool) (fs : gmap string file_data)
    (height : Z) (st : canvas * Z) (img : submission_image) : canvas * Z :=
  let '(c, y_position) := st in
  let '(c, y_position) :=
    if (y_position <? 200)%Z then (Canvas.showPage c, (height - 72)%Z) else (c, y_position) in
  if image_readable is_image fs (image_path img)
  then
    let c := Canvas.draw (DrawImage (image_path img) 72 (y_position - 120) 200 150) c in
    let c := Canvas.draw (SetFont "Helvetica-Bold" 12) c in
    let c := Canvas.draw (DrawString 300 (y_position - 80) (PyStr.capitalize (image_type img))) c in
    let c := Canvas.draw (SetFont "Helvetica" 10) c in
    let c := Canvas.draw
               (DrawString 300 (y_position - 100)
                  ("Status: " ++ (if String.eqb (validation_result img) "yes"
                                  then "Valid" else "Invalid"))) c in
    let c := Canvas.draw
               (DrawString 300 (y_position - 120) ("Notes: " ++ validation_reason img)) c in
    (c, (y_position - 180)%Z)
  else (c, y_position).

(** [row[column]] on the result of [fetchone()]: there is nothing to
    subscript when no row matched. *)
Definition row_getitem {S A} (row : option submission) (column : submission -> A) : M S A :=
  match row with
  | Some r => ret (column r)
  | None => raise (PyError "TypeError" "'NoneType' object is not subscriptable")
  end.

(** The report is built on a canvas in memory and reaches the file store
    with [c.save()]; [os.makedirs] creates a directory, which the file
    store does not record. *)
Definition generate_pdf_report (is_image : list Byte.byte -> bool) (submission_id : string)
  : M world string :=
  rows <- with_db
      (submission <- Sql.select_submission submission_id ;;
       images <- Sql.select_images submission_id ;;
       ret (submission, images)) ;;
  let '(submission, images) := rows in
  let filename := "reports/" ++ submission_id ++ ".pdf" in
  let c := Canvas.new in
  let '(width, height) := letter in
  (* Header *)
  let c := Canvas.draw (SetFont "Helvetica-Bold" 16) c in
  let c := Canvas.draw (DrawString 72 (height - 72) "Vehicle Insurance Inspection Report") c in
  let c := Canvas.draw (SetFont "Helvetica" 12) c in
  let c := Canvas.draw (DrawString 72 (height - 100) ("Submission ID: " ++ submission_id)) c in
  year <- row_getitem submission vehicle_year ;;
  make <- row_getitem submission vehicle_make ;;
  model <- row_getitem submission vehicle_model ;;
  let c := Canvas.draw
             (DrawString 72 (height - 120)
                ("Vehicle: " ++ pretty year ++ " " ++ make ++ " " ++ model)) c in
  created <- row_getitem submission created_at ;;
  let c := Canvas.draw (DrawString 72 (height - 140) ("Submission Date: " ++ created)) c in
  (* Images *)
  fs <- gets files ;;
  let '(c, _) := fold_left (report_block is_image fs height) images (c, (height - 180)%Z) in
  modify (set_files <[filename := Pdf (Canvas.saved_pages c)]>) ;;
  ret filename.

(** The [FileResponse] of the report endpoint. *)
Record file_response : Type := mkFileResponse {
  f_path : string;
  f_filename : string
}.

Definition get_submission_report (is_image : list Byte.byte -> bool) (submission_id : string)
  : M world file_response :=
  pdf_path <- generate_pdf_report is_image submission_id ;;
  ret {| f_path := pdf_path; f_filename := "insurance_report_" ++ submission_id ++ ".pdf" |}.

(** ** The application as a whole *)

(** One request, with what the outside world does while it is served. *)
Inductive request : Type :=
  | PostSubmission (env : create_env) (data : Body.SubmissionCreate) (token : string)
  | PostUpload (env : upload_env) (submission_id image_type : string) (file : UploadFile)
  | GetReport (is_image : list Byte.byte -> bool) (submission_id : string).

Inductive response : Type :=
  | Created (r : create_response)
  | Uploaded (r : upload_response)
  | Report (r : file_response).

Definition handle (rq : request) : M world response :=
  match rq with
  | PostSubmission env data token =>
      r <- create_submission env data token ;; ret (Created r)
  | PostUpload env submission_id image_type file =>
      r <- upload_image env submission_id image_type file ;; ret (Uploaded r)
  | GetReport is_image submission_id =>
      r <- get_submission_report is_image submission_id ;; ret (Report r)
  end.

(** The status line that FastAPI sends: an [HTTPException] carries its own
    code, any other exception leaving a handler is a 500, and a returned
    [JSONResponse] is a 200.  For the [FileResponse] of the report the 200
    is the answer to a request without a [Range] header; what a range
    request gets is not modelled. *)
Definition http_status {A} (o : outcome A) : nat :=
  match o with
  | Returns _ => 200
  | Raises (HTTPException status_code _) => status_code
  | Raises (PyError _ _) => 500
  end.

Definition is_client_error (code : nat) : bool := (400 <=? code)%nat && (code <? 500)%nat.

(** The world after serving the requests in order. *)
Definition serve (w : world) (rqs : list request) : world :=
  fold_left (fun w rq => snd (handle rq w)) rqs w.

(** ** Notions used to state the properties *)

(** [p] occurs in [s] as a substring. *)
Definition occurs (p s : string) : Prop :=
  exists pre post : string, s = pre ++ p ++ post.

(** Every character of [s] is white space. *)
Definition blank (s : string) : Prop :=
  forall c : ascii, In c (list_ascii_of_string s) -> PyStr.isspace c = true.

(** [s] neither begins nor ends with white space. *)
Definition trimmed (s : string) : Prop :=
  forall (c : ascii) (t : string),
    (s = String c t \/ s = t ++ String c EmptyString) -> PyStr.isspace c = false.

(** The number of [submission_images] rows of a submission. *)
Definition image_count (sid : string) (w : world) : nat :=
  length (Sql.images_of sid (db w)).

(** The [status] column of a submission, when the row exists. *)
Definition status_of (sid : string) (w : world) : option string :=
  status <$> submissions (db w) !! sid.

(** Some image row already names [sid] as its submission. *)
Definition referenced (sid : string) (w : world) : bool :=
  existsb (fun r => String.eqb (submission_id r) sid) (submission_images (db w)).

(** [u] is the primary key of some image row. *)
Definition image_id_taken (u : string) (w : world) : bool :=
  existsb (fun r => String.eqb (id r) u) (submission_images (db w)).

(** The guarantee of [uuid.uuid4()] that the completion rule leans on: along
    the requests served from [w], the id drawn for a new submission is
    never one that image rows already refer to. *)
Fixpoint creations_unreferenced (w : world) (rqs : list request) : bool :=
  match rqs with
  | [] => true
  | rq :: rqs' =>
      match rq with
      | PostSubmission env _ _ => negb (referenced (submission_uuid4 env) w)
      | _ => true
      end && creations_unreferenced (snd (handle rq w)) rqs'
  end.

(** The requests of one client that uploads, in order, each of [ups] to
    the same [image_type] of the same submission. *)
Definition uploads_to (submission_id image_type : string)
    (ups : list (upload_env * UploadFile)) : list request :=
  map (fun up => PostUpload (fst up) submission_id image_type (snd up)) ups.

(** The uploads of [ups] meet no storage fault and draw pairwise distinct
    image ids, none of them taken in [w]. *)
Definition clean_uploads (w : world) (ups : list (upload_env * UploadFile)) : Prop :=
  Forall (fun up => storage (fst up) = NoFault /\ image_id_taken (image_uuid4 (fst up)) w = false) ups
  /\ NoDup (map (fun up => image_uuid4 (fst up)) ups).

(** The image row that a successful upload inserts. *)
Definition uploaded_row (env : upload_env) (submission_id image_type : string)
    (file : UploadFile) (v : verdict) : submission_image :=
  {| id := image_uuid4 env; submission_id := submission_id; image_type := image_type;
     image_path := upload_filepath submission_id image_type file;
     validation_result := if valid v then "yes" else "no";
     validation_reason := reason v |}.

(** The world in which the classifier runs during an upload, and the one
    it leaves: the file is in place, then the model has been called once. *)
Definition after_write (sid image_type : string) (file : UploadFile) (w : world) : world :=
  set_files <[upload_filepath sid image_type file := Bytes (file_bytes file)]> w.

Definition after_chat (prompt : string) (sid image_type : string) (file : UploadFile)
    (w : world) : world :=
  log_chat {| call_model := "llava:latest"; call_content := prompt;
              call_images := [upload_filepath sid image_type file] |}
    (after_write sid image_type file w).

(** The tables after a successful upload. *)
Definition after_insert (row : submission_image) (w : world) : database :=
  {| submissions :=
       if (length IMAGE_REQUIREMENTS <=? S (image_count (submission_id row) w))%nat
       then alter (Sql.with_status "complete") (submission_id row) (submissions (db w))
       else submissions (db w);
     submission_images := submission_images (db w) ++ [row] |}.

(** The completion rule as a property of the tables: every submission is
    pending or complete, and complete exactly when it has at least as many
    image rows as there are required image types. *)
Definition completion_invariant (w : world) : Prop :=
  forall (sid : string) (row : submission),
    submissions (db w) !! sid = Some row ->
    (status row = "complete" \/ status row = "pending") /\
    (status row = "complete" <-> length IMAGE_REQUIREMENTS <= image_count sid w).

(** The row that [create_submission] inserts. *)
Definition created_row (env : create_env) (data : Body.SubmissionCreate) (token : string)
  : submission :=
  {| user_id := token; vehicle_make := Body.vehicle_make data;
     vehicle_model := Body.vehicle_model data; vehicle_year := Body.vehicle_year data;
     status := "pending"; created_at := now_isoformat env |}.

(** ** Sample requests *)

Definition demo_create : request :=
  PostSubmission {| submission_uuid4 := "s1"; now_isoformat := "2024-05-01T10:00:00" |}
    {| Body.vehicle_make := "Toyota"; Body.vehicle_model := "Corolla";
       Body.vehicle_year := 2020 |}
    "token".

Definition demo_env (uuid text : string) : upload_env :=
  {| storage := NoFault;
     reply := ChatReturns {| message := {| content := text |} |};
     image_uuid4 := uuid |}.

Definition demo_file : UploadFile := {| filename := "photo.jpg"; file_bytes := [Byte.x01] |}.

(** Eight photographs, all sent as the front view of submission "s1". *)
Definition demo_fronts : list (upload_env * UploadFile) :=
  map (fun uuid => (demo_env uuid "Yes, clearly visible", demo_file))
    ["i1"; "i2"; "i3"; "i4"; "i5"; "i6"; "i7"; "i8"].

(** ** Notions for the further properties *)

(** Where [generate_pdf_report] saves the report of a submission. *)
Definition report_path (submission_id : string) : string :=
  "reports/" ++ submission_id ++ ".pdf".

(** The canvas of a report once its header is drawn. *)
Definition report_header (submission_id : string) (row : submission) : canvas :=
  let height := snd letter in
  let c := Canvas.new in
  let c := Canvas.draw (SetFont "Helvetica-Bold" 16) c in
  let c := Canvas.draw (DrawString 72 (height - 72) "Vehicle Insurance Inspection Report") c in
  let c := Canvas.draw (SetFont "Helvetica" 12) c in
  let c := Canvas.draw (DrawString 72 (height - 100) ("Submission ID: " ++ submission_id)) c in
  let c := Canvas.draw
             (DrawString 72 (height - 120)
                ("Vehicle: " ++ pretty (vehicle_year row) ++ " " ++ vehicle_make row ++ " "
                 ++ vehicle_model row)) c in
  Canvas.draw (DrawString 72 (height - 140) ("Submission Date: " ++ created_at row)) c.

(** The canvas and [y_position] when the loop over the images ends. *)
Definition report_canvas (is_image : list Byte.byte -> bool) (submission_id : string)
    (row : submission) (w : world) : canvas * Z :=
  fold_left (report_block is_image (files w) (snd letter))
    (Sql.images_of submission_id (db w))
    (report_header submission_id row, (snd letter - 180)%Z).

(** The pages of the report that is saved for a submission with row [row]. *)
Definition report_pages (is_image : list Byte.byte -> bool) (submission_id : string)
    (row : submission) (w : world) : list (list draw_op) :=
  Canvas.saved_pages (fst (report_canvas is_image submission_id row w)).

(** The images of a page, each with the height at which it is drawn. *)
Definition image_ops (ops : list draw_op) : list (string * Z) :=
  flat_map (fun op => match op with
                      | DrawImage path _ y _ _ => [(path, y)]
                      | _ => []
                      end) ops.

(** The images drawn on a canvas so far, in order. *)
Definition drawn (c : canvas) : list (string * Z) :=
  (flat_map image_ops (shown c) ++ image_ops (current c))%list.

(** [r'] is the row [r] with, at most, another status. *)
Definition same_but_status (r r' : submission) : Prop :=
  user_id r' = user_id r /\ vehicle_make r' = vehicle_make r /\
  vehicle_model r' = vehicle_model r /\ vehicle_year r' = vehicle_year r /\
  created_at r' = created_at r.

(** What holds of an image row in every state the application reaches:
    its type is on the whitelist, its verdict is "yes" or "no", its path is
    the upload path of its submission and type, uploaded bytes are stored
    at that path, and the model was called for that path with the prompt
    of its type. *)
Definition image_row_ok (w : world) (row : submission_image) : Prop :=
  known_image_type (image_type row) = true /\
  (validation_result row = "yes" \/ validation_result row = "no") /\
  (exists file : UploadFile,
      image_path row = upload_filepath (submission_id row) (image_type row) file) /\
  (exists data : list Byte.byte, files w !! image_path row = Some (Bytes data)) /\
  (exists prompt : string,
      dict_lookup prompts (image_type row) = Some prompt /\
      In {| call_model := "llava:latest"; call_content := prompt;
            call_images := [image_path row] |} (chat_log w)).

Definition store_invariant (w : world) : Prop :=
  NoDup (map id (submission_images (db w))) /\
  Forall (image_row_ok w) (submission_images (db w)).

(** What the loop of [generate_pdf_report] keeps true of its canvas and
    [y_position]: no page shown so far carries more than three images,
    the page in progress has room left according to [y_position], and
    every image was drawn at a height between 80 and 600 points. *)
Definition page_inv (st : canvas * Z) : Prop :=
  Forall (fun page => length (image_ops page) <= 3) (shown (fst st)) /\
  (180 * Z.of_nat (length (image_ops (current (fst st)))) + snd st <= 720)%Z /\
  (20 <= snd st)%Z /\
  Forall (fun py => (80 <= snd py <= 600)%Z) (drawn (fst st)).

(** The six drawing instructions of a report's header. *)
Definition header_ops (submission_id : string) (row : submission) : list draw_op :=
  current (report_header submission_id row).

(** An image row of the sample submission. *)
Definition demo_row : submission_image :=
  {| id := "i1"; submission_id := "s1"; image_type := "front";
     image_path := "uploads/s1_front.jpg"; validation_result := "yes";
     validation_reason := "Valid image" |}.


(** [s] holds no slash. *)
Definition slash_free (s : string) : bool := negb (PyStr.has_char "/" s).

(** No upload and no report request names a submission id with a slash in
    it (the path parameter of the two routes matches no slash). *)
Definition slash_free_ids (rqs : list request) : bool :=
  forallb (fun rq => match rq with
                     | PostSubmission _ _ _ => true
                     | PostUpload _ submission_id _ _ => slash_free submission_id
                     | GetReport _ submission_id => slash_free submission_id
                     end) rqs.

(** * Properties *)

(** ** Substring search *)

Lemma startswith_spec (p s : string) :
  PyStr.startswith p s = true <-> exists post : string, s = p ++ post.
Proof.
  revert s. induction p as [|a p IH]; intros s; simpl.
  - split; [intros _; exists s; reflexivity | reflexivity].
  - destruct s as [|b s]; simpl.
    + split; [discriminate | intros [post H]; discriminate].
    + rewrite andb_true_iff, Ascii.eqb_eq, IH. split.
      * intros [-> [post ->]]. exists post. reflexivity.
      * intros [post H]. injection H as -> ->. split; [reflexivity | eexists; reflexivity].
Qed.

Lemma contains_spec (p s : string) :
  PyStr.contains p s = true <-> occurs p s.
Proof.
  unfold occurs. induction s as [|b s IH].
  - simpl. rewrite orb_false_r, startswith_spec. split.
    + intros [post H]. exists EmptyString, post. exact H.
    + intros [pre [post H]]. destruct pre; [exists post; exact H | discriminate].
  - cbn [PyStr.contains]. rewrite orb_true_iff, IH, startswith_spec. split.
    + intros [[post H] | [pre [post H]]].
      * exists EmptyString, post. exact H.
      * exists (String b pre), post. simpl. rewrite H. reflexivity.
    + intros [pre [post H]]. destruct pre as [|c pre]; simpl in H.
      * left. exists post. exact H.
      * right. injection H as _ ->. exists pre, post. reflexivity.
Qed.

Lemma contains_false_spec (p s : string) :
  PyStr.contains p s = false <-> ~ occurs p s.
Proof.
  rewrite <- contains_spec. destruct (PyStr.contains p s); split; intros H;
    try reflexivity; try discriminate; try (intros E; discriminate E).
  exfalso. apply H. reflexivity.
Qed.

Lemma occurs_invalid_valid (s : string) : occurs "invalid" s -> occurs "valid" s.
Proof.
  intros [pre [post ->]]. exists (pre ++ "in"), post.
  induction pre as [|c pre IH]; [reflexivity | ].
  change (String c (pre ++ "invalid" ++ post) = String c ((pre ++ "in") ++ "valid" ++ post)).
  rewrite IH. reflexivity.
Qed.

(** ** Normalisation of the model's text *)

Lemma append_cons (c : ascii) (s t : string) : String c s ++ t = String c (s ++ t).
Proof. reflexivity. Qed.

Lemma append_nil_r (s : string) : s ++ "" = s.
Proof.
  induction s as [|c s IH]; [reflexivity | rewrite append_cons, IH; reflexivity].
Qed.

Lemma append_snoc_nonempty (t : string) (c : ascii) : t ++ String c "" <> "".
Proof. destruct t; discriminate. Qed.

Lemma blank_nil : blank "".
Proof. intros c []. Qed.

Lemma blank_cons (c : ascii) (s : string) :
  PyStr.isspace c = true -> blank s -> blank (String c s).
Proof. intros Hc Hs a [<- | Ha]; [exact Hc | apply Hs, Ha]. Qed.

Lemma lstrip_spec (s : string) :
  exists l : string,
    blank l /\ s = l ++ PyStr.lstrip s /\
    forall (c : ascii) (t : string), PyStr.lstrip s = String c t -> PyStr.isspace c = false.
Proof.
  induction s as [|a s (l & Hl & Hs & Hhd)]; simpl.
  - exists "". split; [apply blank_nil | split; [reflexivity | discriminate]].
  - destruct (PyStr.isspace a) eqn:Ha.
    + exists (String a l). split; [apply blank_cons; assumption | split].
      * rewrite append_cons, <- Hs. reflexivity.
      * exact Hhd.
    + exists "". split; [apply blank_nil | split; [reflexivity |]].
      intros c t E. injection E as <- _. exact Ha.
Qed.

Lemma rstrip_spec (s : string) :
  exists r : string,
    blank r /\ s = PyStr.rstrip s ++ r /\
    forall (c : ascii) (t : string),
      PyStr.rstrip s = t ++ String c "" -> PyStr.isspace c = false.
Proof.
  induction s as [|a s (r & Hr & Hs & Htl)]; cbn [PyStr.rstrip].
  - exists "". split; [apply blank_nil | split; [reflexivity |]].
    intros c t E. symmetry in E. destruct (append_snoc_nonempty _ _ E).
  - destruct (PyStr.rstrip s) as [|b u] eqn:Eu.
    + change ("" ++ r) with r in Hs. subst r.
      destruct (PyStr.isspace a) eqn:Ha.
      * exists (String a s). split; [apply blank_cons; assumption | split; [reflexivity |]].
        intros c t E. symmetry in E. destruct (append_snoc_nonempty _ _ E).
      * exists s. split; [exact Hr | split; [reflexivity |]].
        intros c t E. destruct t as [|x t].
        -- injection E as <-. exact Ha.
        -- rewrite append_cons in E. injection E as _ E.
           symmetry in E. destruct (append_snoc_nonempty _ _ E).
    + exists r. split; [exact Hr | split].
      * rewrite append_cons, <- Hs. reflexivity.
      * intros c t E. destruct t as [|x t].
        -- discriminate E.
        -- rewrite append_cons in E. injection E as _ E. apply (Htl c t E).
Qed.

Lemma rstrip_nil_head (s : string) (c : ascii) (t : string) :
  PyStr.rstrip s = String c t -> exists u : string, s = String c u.
Proof.
  destruct s as [|a s]; cbn [PyStr.rstrip]; [discriminate |].
  destruct (PyStr.rstrip s).
  - destruct (PyStr.isspace a); [discriminate |]. intros E. injection E as <- _. eexists; reflexivity.
  - intros E. injection E as <- _. eexists; reflexivity.
Qed.

(** [strip] removes a run of white space at each end and leaves a text
    that has none there. *)
Lemma strip_spec (s : string) :
  exists l r : string,
    blank l /\ blank r /\ s = l ++ PyStr.strip s ++ r /\ trimmed (PyStr.strip s).
Proof.
  unfold PyStr.strip.
  destruct (lstrip_spec s) as (l & Hl & Hs & Hhd).
  destruct (rstrip_spec (PyStr.lstrip s)) as (r & Hr & Hm & Htl).
  exists l, r. repeat split; try assumption.
  - rewrite <- Hm. exact Hs.
  - intros c t [E | E].
    + destruct (rstrip_nil_head _ _ _ E) as [u Eu]. apply (Hhd c u Eu).
    + apply (Htl c t E).
Qed.

(** [lower] leaves no capital letter A-Z behind. *)
Lemma lower_char_no_capital (c : ascii) :
  let n := N_of_ascii (PyStr.lower_char c) in ((65 <=? n) && (n <=? 90))%N = false.
Proof. destruct c as [[] [] [] [] [] [] [] []]; reflexivity. Qed.

(** ** The classifier *)

Lemma known_image_type_prompt (image_type : string) :
  known_image_type image_type = true ->
  exists prompt : string, dict_lookup prompts image_type = Some prompt.
Proof.
  unfold known_image_type, IMAGE_REQUIREMENTS, prompts.
  cbn [existsb type dict_lookup].
  repeat (destruct (String.eqb _ image_type); [intros _; eexists; reflexivity |]).
  discriminate.
Qed.

(** The classifier always returns; it leaves the database and the files
    alone, and calls the model exactly when its table has a prompt for the
    image type. *)
Lemma validate_image_with_ai_returns (reply : chat_reply) (image_path image_type : string)
    (w : world) :
  exists v : verdict,
    validate_image_with_ai reply image_path image_type w =
      (Returns v,
       match dict_lookup prompts image_type with
       | Some prompt =>
           log_chat {| call_model := "llava:latest"; call_content := prompt;
                       call_images := [image_path] |} w
       | None => w
       end).
Proof.
  unfold validate_image_with_ai, try_except, bind, dict_getitem.
  destruct (dict_lookup prompts image_type) as [prompt|]; cbn.
  - destruct reply; cbn; eexists; reflexivity.
  - eexists; reflexivity.
Qed.

(** C2: on a model response [raw], for an image type of the prompt table,
    the classifier returns the verdict computed from the lower-cased,
    stripped text [content]: valid exactly when "yes" or "valid" occurs in
    it (so "invalid" alone makes it valid), with [content] itself as the
    reason when "no" or "invalid" occurs and "Valid image" otherwise.
    [content] is the lower-cased response less the white space at its two
    ends. *)
Theorem classify_substring_rule (raw image_path image_type : string) (w : world) :
  known_image_type image_type = true ->
  let text := PyStr.strip (PyStr.lower raw) in
  (exists l r : string,
      blank l /\ blank r /\ PyStr.lower raw = l ++ text ++ r /\ trimmed text) /\
  exists (v : verdict) (w' : world),
    validate_image_with_ai (ChatReturns {| message := {| content := raw |} |})
      image_path image_type w = (Returns v, w') /\
    (valid v = true <-> occurs "yes" text \/ occurs "valid" text) /\
    (occurs "invalid" text -> valid v = true) /\
    (occurs "no" text \/ occurs "invalid" text -> reason v = text) /\
    (~ (occurs "no" text \/ occurs "invalid" text) -> reason v = "Valid image").
Proof.
  intros Hknown text. split; [apply strip_spec |].
  destruct (known_image_type_prompt _ Hknown) as [prompt Hprompt].
  unfold validate_image_with_ai, try_except, bind, dict_getitem.
  rewrite Hprompt. unfold ollama_chat, bind, modify, ret.
  eexists _, _. split; [reflexivity |]. cbn [valid reason content message].
  fold text. rewrite orb_true_iff, !contains_spec.
  split; [reflexivity |]. split; [| split].
  - intros H. right. apply occurs_invalid_valid, H.
  - intros H. rewrite <- !contains_spec, <- orb_true_iff in H. rewrite H. reflexivity.
  - intros H. rewrite <- !contains_spec, <- orb_true_iff in H.
    destruct (_ || _); [destruct H; reflexivity | reflexivity].
Qed.

(** C2, on the response "Invalid image " for a front view. *)
Lemma classify_substring_rule_witness :
  known_image_type "front" = true /\
  exists (v : verdict) (w' : world),
    validate_image_with_ai (ChatReturns {| message := {| content := "Invalid image " |} |})
      "uploads/s1_front.jpg" "front" initial_world = (Returns v, w') /\
    valid v = true /\ reason v = "invalid image".
Proof.
  split; [reflexivity |].
  destruct (classify_substring_rule "Invalid image " "uploads/s1_front.jpg" "front"
              initial_world eq_refl) as [_ (v & w' & E & _ & Hvalid & Hreason & _)].
  assert (Hocc : occurs "invalid" (PyStr.strip (PyStr.lower "Invalid image "))).
  { exists "", " image". reflexivity. }
  exists v, w'. split; [exact E | split].
  - apply Hvalid, Hocc.
  - apply Hreason. right. exact Hocc.
Defined.

(** C3: whatever exception the model call raises, the classifier returns
    (it does not raise) the verdict invalid with the reason
    "Validation error: " followed by the exception's text; and whatever the
    model does, the classifier returns a verdict and raises nothing. *)
Theorem classify_fail_closed (cls msg image_path image_type : string) (w : world) :
  known_image_type image_type = true ->
  fst (validate_image_with_ai (ChatRaises cls msg) image_path image_type w)
  = Returns {| valid := false; reason := "Validation error: " ++ msg |} /\
  forall reply : chat_reply,
  exists v : verdict,
    fst (validate_image_with_ai reply image_path image_type w) = Returns v.
Proof.
  intros Hknown. split.
  - destruct (known_image_type_prompt _ Hknown) as [prompt Hprompt].
    unfold validate_image_with_ai, try_except, bind, dict_getitem.
    rewrite Hprompt. reflexivity.
  - intros reply.
    destruct (validate_image_with_ai_returns reply image_path image_type w) as [v ->].
    exists v. reflexivity.
Qed.

(** C3, on a refused connection while a VIN plate is checked. *)
Lemma classify_fail_closed_witness :
  known_image_type "vin" = true /\
  fst (validate_image_with_ai (ChatRaises "ConnectionError" "connection refused")
         "uploads/s1_vin.png" "vin" initial_world)
  = Returns {| valid := false; reason := "Validation error: connection refused" |}.
Proof.
  split; [reflexivity |].
  apply (classify_fail_closed "ConnectionError" "connection refused" "uploads/s1_vin.png"
           "vin" initial_world eq_refl).
Defined.

(** ** The upload handler, case by case *)

Lemma known_image_type_spec (image_type : string) :
  known_image_type image_type = true <-> In image_type (map type IMAGE_REQUIREMENTS).
Proof.
  unfold known_image_type. rewrite existsb_exists, in_map_iff.
  split; intros [req [H1 H2]]; exists req.
  - apply String.eqb_eq in H2. split; assumption.
  - split; [assumption | apply String.eqb_eq; assumption].
Qed.

Lemma required_categories :
  map type IMAGE_REQUIREMENTS =
    ["front"; "back"; "left"; "right"; "engine"; "dashboard"; "vin"; "registration"]
  /\ length IMAGE_REQUIREMENTS = 8.
Proof. split; reflexivity. Qed.

Lemma upload_image_unknown (env : upload_env) (sid image_type : string) (file : UploadFile)
    (w : world) :
  known_image_type image_type = false ->
  upload_image env sid image_type file w = (Raises (HTTPException 400 "Invalid image type"), w).
Proof. intros H. unfold upload_image. rewrite H. reflexivity. Qed.

Lemma images_of_snoc (sid : string) (d : gmap string submission)
    (rows : list submission_image) (row : submission_image) :
  Sql.images_of sid {| submissions := d; submission_images := rows ++ [row] |} =
  (Sql.images_of sid {| submissions := d; submission_images := rows |} ++
   (if String.eqb (submission_id row) sid then [row] else []))%list.
Proof. unfold Sql.images_of. cbn [submission_images]. rewrite List.filter_app. reflexivity. Qed.

Lemma upload_image_known (env : upload_env) (sid image_type : string) (file : UploadFile)
    (w : world) :
  known_image_type image_type = true ->
  storage env = NoFault ->
  exists (v : verdict) (prompt : string),
    dict_lookup prompts image_type = Some prompt /\
    validate_image_with_ai (reply env) (upload_filepath sid image_type file) image_type
      (after_write sid image_type file w)
    = (Returns v, after_chat prompt sid image_type file w) /\
    upload_image env sid image_type file w =
      if image_id_taken (image_uuid4 env) w
      then (Raises (PyError "IntegrityError" "UNIQUE constraint failed: submission_images.id"),
            after_chat prompt sid image_type file w)
      else (Returns {| r_id := image_uuid4 env; r_valid := valid v; r_reason := reason v;
                       r_image_url := "/uploads/" ++ upload_filename sid image_type file |},
            set_db (after_insert (uploaded_row env sid image_type file v) w)
              (after_chat prompt sid image_type file w)).
Proof.
  intros Hknown Hstorage.
  destruct (known_image_type_prompt _ Hknown) as [prompt Hprompt].
  destruct (validate_image_with_ai_returns (reply env) (upload_filepath sid image_type file)
              image_type (after_write sid image_type file w)) as [v Hv].
  rewrite Hprompt in Hv. exists v, prompt. split; [exact Hprompt |]. split; [exact Hv |].
  unfold upload_image. rewrite Hknown. cbn [negb].
  unfold bind at 1. unfold open_write. rewrite Hstorage.
  unfold modify at 1. fold (after_write sid image_type file w).
  unfold bind at 1. rewrite Hv. fold (after_chat prompt sid image_type file w).
  unfold bind at 1, with_db, bind at 1, Sql.insert_submission_image.
  change (db (after_chat prompt sid image_type file w)) with (db w).
  fold (image_id_taken (image_uuid4 env) w). cbn [id].
  fold (image_id_taken (image_uuid4 env) w).
  destruct (image_id_taken (image_uuid4 env) w); [reflexivity |].
  unfold bind at 1, Sql.count_images, gets.
  rewrite images_of_snoc. cbn [submission_id]. rewrite String.eqb_refl.
  rewrite length_app. cbn [length].
  replace (length (Sql.images_of sid {| submissions := submissions (db w);
                                        submission_images := submission_images (db w) |}) + 1)
    with (S (image_count sid w)).
  2:{ unfold image_count. destruct (db w). cbn. lia. }
  unfold after_insert, uploaded_row. cbn [submission_id].
  destruct (length IMAGE_REQUIREMENTS <=? S (image_count sid w))%nat; reflexivity.
Qed.

Lemma upload_image_fault (env : upload_env) (sid image_type : string) (file : UploadFile)
    (w : world) :
  known_image_type image_type = true ->
  storage env <> NoFault ->
  exists (msg : string) (fs : gmap string file_data),
    upload_image env sid image_type file w =
      (Raises (PyError "OSError" msg),
       {| files := fs; db := db w; chat_log := chat_log w |}) /\
    (fs = files w \/
     exists written : nat,
       fs = <[upload_filepath sid image_type file := Bytes (firstn written (file_bytes file))]>
              (files w)).
Proof.
  intros Hknown Hfault. unfold upload_image. rewrite Hknown. cbn [negb].
  unfold bind at 1, open_write.
  destruct (storage env) as [|msg|msg written]; [contradiction | |].
  - exists msg, (files w). split; [destruct w; reflexivity | left; reflexivity].
  - eexists msg, _. split; [reflexivity |]. right. exists written. reflexivity.
Qed.

(** C4: an upload whose image type is not among the eight of
    IMAGE_REQUIREMENTS is answered with the client error 400 and leaves the
    world as it was: no file stored, no call of the model, no row
    inserted. *)
Theorem upload_unknown_category_rejected (env : upload_env) (sid image_type : string)
    (file : UploadFile) (w : world) :
  ~ In image_type
      ["front"; "back"; "left"; "right"; "engine"; "dashboard"; "vin"; "registration"] ->
  let result := upload_image env sid image_type file w in
  fst result = Raises (HTTPException 400 "Invalid image type") /\
  is_client_error (http_status (fst result)) = true /\
  files (snd result) = files w /\
  chat_log (snd result) = chat_log w /\
  db (snd result) = db w.
Proof.
  intros Hnot result. subst result.
  rewrite upload_image_unknown; [repeat split |].
  destruct (known_image_type image_type) eqn:E; [| reflexivity].
  exfalso. apply Hnot. apply known_image_type_spec in E. exact E.
Qed.

(** C4, on the image type "windshield". *)
Lemma upload_unknown_category_rejected_witness :
  let result :=
    upload_image {| storage := NoFault;
                    reply := ChatReturns {| message := {| content := "yes" |} |};
                    image_uuid4 := "i1" |}
      "s1" "windshield" {| filename := "w.jpg"; file_bytes := [Byte.x2a] |} initial_world in
  fst result = Raises (HTTPException 400 "Invalid image type") /\
  is_client_error (http_status (fst result)) = true /\
  files (snd result) = files initial_world /\
  chat_log (snd result) = chat_log initial_world /\
  db (snd result) = db initial_world.
Proof.
  apply upload_unknown_category_rejected.
  simpl. intuition discriminate.
Defined.

(** C8: when the storage fails while the uploaded bytes are written, the
    upload ends with that error; the model has not been called and the
    tables are unchanged. *)
Theorem upload_storage_failure_aborts (env : upload_env) (sid image_type : string)
    (file : UploadFile) (w : world) :
  known_image_type image_type = true ->
  storage env <> NoFault ->
  let result := upload_image env sid image_type file w in
  (exists msg : string, fst result = Raises (PyError "OSError" msg)) /\
  chat_log (snd result) = chat_log w /\
  db (snd result) = db w.
Proof.
  intros Hknown Hfault result. subst result.
  destruct (upload_image_fault env sid image_type file w Hknown Hfault)
    as (msg & fs & -> & _).
  split; [exists msg; reflexivity | split; reflexivity].
Qed.

(** C8, on a disk that fills up after three bytes. *)
Lemma upload_storage_failure_aborts_witness :
  let env := {| storage := WriteFails "No space left on device" 3;
                reply := ChatReturns {| message := {| content := "yes" |} |};
                image_uuid4 := "i1" |} in
  let result := upload_image env "s1" "front"
                  {| filename := "a.jpg"; file_bytes := [Byte.x01; Byte.x02; Byte.x03; Byte.x04] |}
                  initial_world in
  chat_log (snd result) = [] /\ db (snd result) = empty_db.
Proof.
  intros env result.
  assert (Hfault : storage env <> NoFault) by discriminate.
  exact (proj2 (upload_storage_failure_aborts env "s1" "front"
                  {| filename := "a.jpg"; file_bytes := [Byte.x01; Byte.x02; Byte.x03; Byte.x04] |}
                  initial_world eq_refl Hfault)).
Defined.

Lemma image_id_taken_after_insert (u : string) (row : submission_image) (w w' : world) :
  image_id_taken u (set_db (after_insert row w) w') =
  image_id_taken u w || String.eqb (id row) u.
Proof.
  unfold image_id_taken, after_insert, set_db. cbn [db submission_images].
  rewrite existsb_app. cbn [existsb]. rewrite orb_false_r. reflexivity.
Qed.

Lemma image_count_after_insert (sid : string) (row : submission_image) (w w' : world) :
  image_count sid (set_db (after_insert row w) w') =
  image_count sid w + (if String.eqb (submission_id row) sid then 1 else 0).
Proof.
  unfold image_count, after_insert, set_db. cbn [db].
  rewrite images_of_snoc, length_app.
  destruct (db w) as [subs rows]. cbn [submission_images submissions].
  destruct (String.eqb (submission_id row) sid); reflexivity.
Qed.

(** Two uploads in a row to the same image type of the same submission,
    with working storage and unused, distinct image ids. *)
Lemma two_uploads (env1 env2 : upload_env) (sid image_type : string) (file1 file2 : UploadFile)
    (w : world) :
  known_image_type image_type = true ->
  storage env1 = NoFault -> storage env2 = NoFault ->
  image_id_taken (image_uuid4 env1) w = false ->
  image_id_taken (image_uuid4 env2) w = false ->
  image_uuid4 env1 <> image_uuid4 env2 ->
  exists (v1 v2 : verdict) (prompt : string),
    let w1 := set_db (after_insert (uploaded_row env1 sid image_type file1 v1) w)
                (after_chat prompt sid image_type file1 w) in
    let w2 := set_db (after_insert (uploaded_row env2 sid image_type file2 v2) w1)
                (after_chat prompt sid image_type file2 w1) in
    upload_image env1 sid image_type file1 w =
      (Returns {| r_id := image_uuid4 env1; r_valid := valid v1; r_reason := reason v1;
                  r_image_url := "/uploads/" ++ upload_filename sid image_type file1 |}, w1) /\
    upload_image env2 sid image_type file2 w1 =
      (Returns {| r_id := image_uuid4 env2; r_valid := valid v2; r_reason := reason v2;
                  r_image_url := "/uploads/" ++ upload_filename sid image_type file2 |}, w2).
Proof.
  intros Hknown Hs1 Hs2 Hu1 Hu2 Hne.
  destruct (upload_image_known env1 sid image_type file1 w Hknown Hs1)
    as (v1 & prompt & Hprompt & _ & E1).
  rewrite Hu1 in E1.
  set (w1 := set_db (after_insert (uploaded_row env1 sid image_type file1 v1) w)
               (after_chat prompt sid image_type file1 w)) in *.
  destruct (upload_image_known env2 sid image_type file2 w1 Hknown Hs2)
    as (v2 & prompt' & Hprompt' & _ & E2).
  assert (prompt' = prompt) as -> by congruence.
  assert (Hu2' : image_id_taken (image_uuid4 env2) w1 = false).
  { unfold w1. rewrite image_id_taken_after_insert, Hu2. cbn [id uploaded_row orb].
    apply String.eqb_neq. exact Hne. }
  rewrite Hu2' in E2.
  exists v1, v2, prompt. split; assumption.
Qed.

(** C7: a second upload of an image type that the submission already has
    is accepted like the first and changes no existing row: each of the
    two uploads appends one row of its own, under its own id, so the
    submission's row count goes up by one each time. *)
Theorem duplicate_upload_appends (env1 env2 : upload_env) (sid image_type : string)
    (file1 file2 : UploadFile) (w : world) :
  known_image_type image_type = true ->
  storage env1 = NoFault -> storage env2 = NoFault ->
  image_id_taken (image_uuid4 env1) w = false ->
  image_id_taken (image_uuid4 env2) w = false ->
  image_uuid4 env1 <> image_uuid4 env2 ->
  let first := upload_image env1 sid image_type file1 w in
  let second := upload_image env2 sid image_type file2 (snd first) in
  exists (r1 r2 : upload_response) (v1 v2 : verdict),
    fst first = Returns r1 /\ fst second = Returns r2 /\
    r_id r1 = image_uuid4 env1 /\ r_id r2 = image_uuid4 env2 /\
    submission_images (db (snd first)) =
      (submission_images (db w) ++ [uploaded_row env1 sid image_type file1 v1])%list /\
    submission_images (db (snd second)) =
      (submission_images (db w) ++ [uploaded_row env1 sid image_type file1 v1;
                                    uploaded_row env2 sid image_type file2 v2])%list /\
    image_count sid (snd first) = S (image_count sid w) /\
    image_count sid (snd second) = S (S (image_count sid w)).
Proof.
  intros Hknown Hs1 Hs2 Hu1 Hu2 Hne first second. subst first second.
  destruct (two_uploads env1 env2 sid image_type file1 file2 w Hknown Hs1 Hs2 Hu1 Hu2 Hne)
    as (v1 & v2 & prompt & E1 & E2).
  cbv zeta in E1, E2. rewrite E1. cbn [fst snd]. rewrite E2. cbn [fst snd].
  eexists _, _, v1, v2. repeat split.
  - unfold set_db, after_insert. cbn [db submission_images].
    rewrite <- app_assoc. reflexivity.
  - rewrite image_count_after_insert. cbn [uploaded_row submission_id].
    rewrite String.eqb_refl. lia.
  - rewrite !image_count_after_insert. cbn [uploaded_row submission_id].
    rewrite String.eqb_refl. lia.
Qed.

(** C7, on two photographs of the front for a submission without rows. *)
Lemma duplicate_upload_appends_witness :
  let env1 := {| storage := NoFault;
                 reply := ChatReturns {| message := {| content := "Yes" |} |};
                 image_uuid4 := "i1" |} in
  let env2 := {| storage := NoFault;
                 reply := ChatReturns {| message := {| content := "No" |} |};
                 image_uuid4 := "i2" |} in
  let file1 := {| filename := "a.jpg"; file_bytes := [Byte.x01] |} in
  let file2 := {| filename := "b.jpg"; file_bytes := [Byte.x02] |} in
  let first := upload_image env1 "s1" "front" file1 initial_world in
  let second := upload_image env2 "s1" "front" file2 (snd first) in
  image_count "s1" (snd first) = 1 /\ image_count "s1" (snd second) = 2.
Proof.
  intros env1 env2 file1 file2 first second.
  assert (Hne : image_uuid4 env1 <> image_uuid4 env2) by discriminate.
  destruct (duplicate_upload_appends env1 env2 "s1" "front" file1 file2 initial_world
              eq_refl eq_refl eq_refl eq_refl eq_refl Hne)
    as (r1 & r2 & v1 & v2 & _ & _ & _ & _ & _ & _ & H1 & H2).
  split; [exact H1 | exact H2].
Defined.

(** C9: the stored path is computed from the submission id, the image type
    and the file name's extension alone; two uploads that agree on the
    three are written to one path, the store ends up as if only the second
    had been written (it no longer depends on the first upload's bytes),
    and the rows of both uploads name that path. *)
Theorem same_path_overwrites (env1 env2 : upload_env) (sid image_type : string)
    (file1 file2 : UploadFile) (w : world) :
  known_image_type image_type = true ->
  storage env1 = NoFault -> storage env2 = NoFault ->
  image_id_taken (image_uuid4 env1) w = false ->
  image_id_taken (image_uuid4 env2) w = false ->
  image_uuid4 env1 <> image_uuid4 env2 ->
  snd (OsPath.splitext (filename file1)) = snd (OsPath.splitext (filename file2)) ->
  let path := OsPath.join UPLOAD_FOLDER
                (sid ++ "_" ++ image_type ++ snd (OsPath.splitext (filename file1))) in
  let first := upload_image env1 sid image_type file1 w in
  let second := upload_image env2 sid image_type file2 (snd first) in
  upload_filepath sid image_type file1 = path /\
  upload_filepath sid image_type file2 = path /\
  files (snd first) = <[path := Bytes (file_bytes file1)]> (files w) /\
  files (snd second) = <[path := Bytes (file_bytes file2)]> (files w) /\
  files (snd second) !! path = Some (Bytes (file_bytes file2)) /\
  exists row1 row2 : submission_image,
    submission_images (db (snd second)) = (submission_images (db w) ++ [row1; row2])%list /\
    id row1 = image_uuid4 env1 /\ id row2 = image_uuid4 env2 /\
    image_path row1 = path /\ image_path row2 = path.
Proof.
  intros Hknown Hs1 Hs2 Hu1 Hu2 Hne Hext path first second. subst first second.
  assert (Hp1 : upload_filepath sid image_type file1 = path) by reflexivity.
  assert (Hp2 : upload_filepath sid image_type file2 = path).
  { unfold upload_filepath, upload_filename. rewrite <- Hext. reflexivity. }
  destruct (two_uploads env1 env2 sid image_type file1 file2 w Hknown Hs1 Hs2 Hu1 Hu2 Hne)
    as (v1 & v2 & prompt & E1 & E2).
  cbv zeta in E1, E2. rewrite E1. cbn [fst snd]. rewrite E2. cbn [fst snd].
  unfold after_chat, after_write, log_chat, set_files, set_db. cbn [files db chat_log].
  rewrite Hp1, Hp2, insert_insert_eq, lookup_insert_eq.
  repeat split.
  exists (uploaded_row env1 sid image_type file1 v1), (uploaded_row env2 sid image_type file2 v2).
  unfold after_insert. cbn [submission_images db uploaded_row id image_path].
  rewrite <- app_assoc. repeat split; assumption.
Qed.

(** C9, on two files named a.jpg and b.jpg sent as the front view. *)
Lemma same_path_overwrites_witness :
  let env1 := {| storage := NoFault;
                 reply := ChatReturns {| message := {| content := "Yes" |} |};
                 image_uuid4 := "i1" |} in
  let env2 := {| storage := NoFault;
                 reply := ChatReturns {| message := {| content := "No" |} |};
                 image_uuid4 := "i2" |} in
  let file1 := {| filename := "a.jpg"; file_bytes := [Byte.x01] |} in
  let file2 := {| filename := "b.jpg"; file_bytes := [Byte.x02] |} in
  let first := upload_image env1 "s1" "front" file1 initial_world in
  let second := upload_image env2 "s1" "front" file2 (snd first) in
  files (snd first) !! "uploads/s1_front.jpg" = Some (Bytes [Byte.x01]) /\
  files (snd second) !! "uploads/s1_front.jpg" = Some (Bytes [Byte.x02]).
Proof.
  intros env1 env2 file1 file2 first second.
  assert (Hne : image_uuid4 env1 <> image_uuid4 env2) by discriminate.
  destruct (same_path_overwrites env1 env2 "s1" "front" file1 file2 initial_world
              eq_refl eq_refl eq_refl eq_refl eq_refl Hne eq_refl)
    as (_ & _ & H1 & _ & H2 & _).
  split; [| exact H2].
  fold first in H1. rewrite H1. apply lookup_insert_eq.
Defined.

Lemma alter_absent (f : submission -> submission) (sid : string) (m : gmap string submission) :
  m !! sid = None -> alter f sid m = m.
Proof.
  intros H. apply map_eq. intros k. rewrite lookup_alter.
  case_decide; [subst k; rewrite H; reflexivity | reflexivity].
Qed.

(** C10: an upload that names a submission without a row in [submissions]
    goes through like any other: the bytes are stored, the model is called
    once, a row referring to the absent submission is appended, the status
    update touches nothing, and the caller gets the verdict with a 200. *)
Theorem upload_without_submission (env : upload_env) (sid image_type : string)
    (file : UploadFile) (w : world) :
  submissions (db w) !! sid = None ->
  known_image_type image_type = true ->
  storage env = NoFault ->
  image_id_taken (image_uuid4 env) w = false ->
  let result := upload_image env sid image_type file w in
  exists (r : upload_response) (v : verdict) (prompt : string),
    fst result = Returns r /\ http_status (fst result) = 200 /\
    r_id r = image_uuid4 env /\ r_valid r = valid v /\ r_reason r = reason v /\
    files (snd result) !! upload_filepath sid image_type file = Some (Bytes (file_bytes file)) /\
    chat_log (snd result) =
      (chat_log w ++ [{| call_model := "llava:latest"; call_content := prompt;
                         call_images := [upload_filepath sid image_type file] |}])%list /\
    submission_images (db (snd result)) =
      (submission_images (db w) ++ [uploaded_row env sid image_type file v])%list /\
    submission_id (uploaded_row env sid image_type file v) = sid /\
    submissions (db (snd result)) = submissions (db w) /\
    submissions (db (snd result)) !! sid = None.
Proof.
  intros Hmissing Hknown Hstorage Hfresh result. subst result.
  destruct (upload_image_known env sid image_type file w Hknown Hstorage)
    as (v & prompt & _ & _ & E).
  rewrite Hfresh in E. rewrite E. cbn [fst snd].
  assert (Hsubs : submissions (after_insert (uploaded_row env sid image_type file v) w)
                  = submissions (db w)).
  { unfold after_insert. cbn [submissions uploaded_row submission_id].
    destruct (_ <=? _)%nat; [apply alter_absent, Hmissing | reflexivity]. }
  eexists _, v, prompt. cbn [r_id r_valid r_reason http_status].
  unfold set_db, after_chat, after_write, log_chat, set_files. cbn [files db chat_log].
  rewrite lookup_insert_eq, Hsubs. repeat split. exact Hmissing.
Qed.

(** C10, on an empty database. *)
Lemma upload_without_submission_witness :
  let env := {| storage := NoFault;
                reply := ChatReturns {| message := {| content := "Yes" |} |};
                image_uuid4 := "i1" |} in
  let file := {| filename := "a.jpg"; file_bytes := [Byte.x01] |} in
  let result := upload_image env "ghost" "front" file initial_world in
  http_status (fst result) = 200 /\
  submissions (db (snd result)) !! "ghost" = None /\
  length (submission_images (db (snd result))) = 1.
Proof.
  intros env file result.
  destruct (upload_without_submission env "ghost" "front" file initial_world
              eq_refl eq_refl eq_refl eq_refl)
    as (r & v & prompt & _ & Hstatus & _ & _ & _ & _ & _ & Hrows & _ & _ & Hnone).
  fold result in Hstatus, Hrows, Hnone.
  split; [exact Hstatus | split; [exact Hnone |]].
  rewrite Hrows. reflexivity.
Defined.

(** ** The report handler *)

Lemma set_db_same (w : world) : set_db (db w) w = w.
Proof. destruct w; reflexivity. Qed.

(** The report of a submission without a row: the lookup finds nothing,
    and subscripting the missing row raises before anything is saved. *)
Lemma get_submission_report_missing (is_image : list Byte.byte -> bool) (sid : string)
    (w : world) :
  submissions (db w) !! sid = None ->
  get_submission_report is_image sid w =
    (Raises (PyError "TypeError" "'NoneType' object is not subscriptable"), w).
Proof.
  intros H. unfold get_submission_report, generate_pdf_report.
  unfold bind at 1. unfold bind at 1. unfold with_db.
  unfold bind at 1. unfold Sql.select_submission at 1. unfold gets at 1.
  unfold bind at 1. unfold Sql.select_images at 1. unfold gets at 1.
  unfold ret at 1. rewrite H, set_db_same. cbn [letter].
  unfold bind at 1. reflexivity.
Qed.

Lemma get_submission_report_db (is_image : list Byte.byte -> bool) (sid : string) (w : world) :
  db (snd (get_submission_report is_image sid w)) = db w.
Proof.
  destruct (submissions (db w) !! sid) as [row|] eqn:H.
  - unfold get_submission_report, generate_pdf_report.
    unfold bind at 1. unfold bind at 1. unfold with_db.
    unfold bind at 1. unfold Sql.select_submission at 1. unfold gets at 1.
    unfold bind at 1. unfold Sql.select_images at 1. unfold gets at 1.
    unfold ret at 1. rewrite H, set_db_same. cbn [letter].
    unfold row_getitem, bind, ret, gets, modify.
    destruct (fold_left _ _ _) as [c y]. reflexivity.
  - rewrite get_submission_report_missing by exact H. reflexivity.
Qed.

(** C5, as the code has it: the report of a submission id without a row
    fails, saving nothing, with the uncaught TypeError of subscripting the
    missing row, which the caller sees as the server error 500 and not as
    a client error. *)
Theorem report_missing_submission_fails (is_image : list Byte.byte -> bool) (sid : string)
    (w : world) :
  submissions (db w) !! sid = None ->
  let result := get_submission_report is_image sid w in
  fst result = Raises (PyError "TypeError" "'NoneType' object is not subscriptable") /\
  http_status (fst result) = 500 /\
  is_client_error (http_status (fst result)) = false /\
  snd result = w.
Proof.
  intros H result. subst result. rewrite get_submission_report_missing by exact H.
  repeat split.
Qed.

(** C5, amended, on an empty database. *)
Lemma report_missing_submission_fails_witness :
  let result := get_submission_report (fun _ => true) "missing" initial_world in
  http_status (fst result) = 500 /\ snd result = initial_world.
Proof.
  intros result.
  destruct (report_missing_submission_fails (fun _ => true) "missing" initial_world eq_refl)
    as (_ & H500 & _ & Hw).
  split; [exact H500 | exact Hw].
Defined.

(** C5 as the specification states it fails: on an empty database the
    report of "missing" is not answered with a client error. *)
Lemma report_missing_submission_not_client_error :
  submissions (db initial_world) !! "missing" = None /\
  ~ is_client_error
      (http_status (fst (get_submission_report (fun _ => true) "missing" initial_world)))
    = true.
Proof. split; [reflexivity | intros H; vm_compute in H; discriminate H]. Qed.

(** ** What one request does to the tables *)

Lemma snd_bind_ret {S A B} (m : M S A) (f : A -> B) (s : S) :
  snd (bind m (fun a => ret (f a)) s) = snd (m s).
Proof. unfold bind, ret. destruct (m s) as [[a|e] s']; reflexivity. Qed.

Lemma create_submission_effect (env : create_env) (data : Body.SubmissionCreate)
    (token : string) (w : world) :
  snd (create_submission env data token w) =
    if negb (Sql.fits_integer (Body.vehicle_year data)) then w
    else
      match submissions (db w) !! submission_uuid4 env with
      | Some _ => w
      | None =>
          set_db {| submissions := <[submission_uuid4 env := created_row env data token]>
                                     (submissions (db w));
                    submission_images := submission_images (db w) |} w
      end.
Proof.
  unfold create_submission, bind, with_db, Sql.insert_submission. cbn [vehicle_year].
  destruct (negb (Sql.fits_integer (Body.vehicle_year data))); [reflexivity |].
  destruct (submissions (db w) !! submission_uuid4 env); reflexivity.
Qed.

Lemma upload_image_db (env : upload_env) (sid image_type : string) (file : UploadFile)
    (w : world) :
  db (snd (upload_image env sid image_type file w)) = db w \/
  exists v : verdict,
    db (snd (upload_image env sid image_type file w))
    = after_insert (uploaded_row env sid image_type file v) w.
Proof.
  destruct (known_image_type image_type) eqn:Hknown.
  - destruct (storage env) eqn:Hstorage.
    + destruct (upload_image_known env sid image_type file w Hknown Hstorage)
        as (v & prompt & _ & _ & E).
      rewrite E. destruct (image_id_taken (image_uuid4 env) w);
        [left; reflexivity | right; exists v; reflexivity].
    + left. destruct (upload_image_fault env sid image_type file w Hknown)
        as (m & fs & -> & _); [rewrite Hstorage; discriminate | reflexivity].
    + left. destruct (upload_image_fault env sid image_type file w Hknown)
        as (m & fs & -> & _); [rewrite Hstorage; discriminate | reflexivity].
  - left. rewrite upload_image_unknown by exact Hknown. reflexivity.
Qed.

(** Every request leaves the tables as they were, or inserts one pending
    submission under an unused id, or appends one image row and
    recomputes the status of its submission. *)
Lemma handle_db (rq : request) (w : world) :
  db (snd (handle rq w)) = db w
  \/ (exists (env : create_env) (data : Body.SubmissionCreate) (token : string),
        rq = PostSubmission env data token /\
        submissions (db w) !! submission_uuid4 env = None /\
        db (snd (handle rq w)) =
          {| submissions := <[submission_uuid4 env := created_row env data token]>
                              (submissions (db w));
             submission_images := submission_images (db w) |})
  \/ (exists row : submission_image, db (snd (handle rq w)) = after_insert row w).
Proof.
  destruct rq as [env data token | env sid image_type file | is_image sid];
    unfold handle; rewrite snd_bind_ret.
  - rewrite create_submission_effect.
    destruct (negb (Sql.fits_integer (Body.vehicle_year data))); [left; reflexivity |].
    destruct (submissions (db w) !! submission_uuid4 env) eqn:E; [left; reflexivity |].
    right; left. exists env, data, token. repeat split. exact E.
  - destruct (upload_image_db env sid image_type file w) as [E | [v E]];
      [left; exact E | right; right; eexists; exact E].
  - left. apply get_submission_report_db.
Qed.

Lemma status_of_after_insert (sid : string) (row : submission_image) (w w' : world) :
  db w' = after_insert row w ->
  status_of sid w' = status_of sid w \/
  (status_of sid w <> None /\ status_of sid w' = Some "complete").
Proof.
  intros E. unfold status_of. rewrite E. unfold after_insert. cbn [submissions].
  destruct (_ <=? _)%nat; [| left; reflexivity].
  rewrite lookup_alter. case_decide as Hsid; [| left; reflexivity].
  subst sid. destruct (submissions (db w) !! submission_id row) as [r|];
    [right; split; [discriminate | reflexivity] | left; reflexivity].
Qed.

Lemma handle_keeps_complete (rq : request) (w : world) (sid : string) :
  status_of sid w = Some "complete" ->
  status_of sid (snd (handle rq w)) = Some "complete".
Proof.
  intros H.
  destruct (handle_db rq w) as [E | [(env & data & token & _ & Hnone & E) | [row E]]].
  - unfold status_of in *. rewrite E. exact H.
  - unfold status_of in *. rewrite E. cbn [submissions].
    rewrite lookup_insert_ne; [exact H |].
    intros Heq. rewrite Heq in Hnone. rewrite Hnone in H. discriminate H.
  - destruct (status_of_after_insert sid row w _ E) as [E' | [_ E']];
      [rewrite E'; exact H | exact E'].
Qed.

(** C6: a complete submission stays complete whatever requests are served
    afterwards; and an upload leaves the status of a submission as it was
    or makes it complete. *)
Theorem complete_is_final (w : world) (sid : string) :
  (forall (env : upload_env) (sid' image_type : string) (file : UploadFile),
      let w' := snd (upload_image env sid' image_type file w) in
      status_of sid w' = status_of sid w \/
      (status_of sid w <> None /\ status_of sid w' = Some "complete")) /\
  (status_of sid w = Some "complete" ->
   forall rqs : list request, status_of sid (serve w rqs) = Some "complete").
Proof.
  split.
  - intros env sid' image_type file w'. subst w'.
    destruct (upload_image_db env sid' image_type file w) as [E | [v E]].
    + left. unfold status_of. rewrite E. reflexivity.
    + apply (status_of_after_insert sid _ w _ E).
  - intros H rqs. revert w H. unfold serve.
    induction rqs as [|rq rqs IH]; intros w H; cbn [fold_left]; [exact H |].
    apply IH, handle_keeps_complete, H.
Qed.

(** C6, on submission "s1" after eight uploads and two further requests. *)
Lemma complete_is_final_witness :
  let w := serve initial_world (demo_create :: uploads_to "s1" "front" demo_fronts) in
  status_of "s1" w = Some "complete" /\
  status_of "s1" (serve w [PostUpload (demo_env "i9" "no") "s1" "back" demo_file; demo_create])
  = Some "complete".
Proof.
  intros w.
  assert (H : status_of "s1" w = Some "complete") by (vm_compute; reflexivity).
  split; [exact H |].
  apply (proj2 (complete_is_final w "s1") H).
Defined.

(** ** The completion rule *)

Lemma referenced_false_count (sid : string) (w : world) :
  referenced sid w = false -> image_count sid w = 0.
Proof.
  unfold referenced, image_count, Sql.images_of.
  induction (submission_images (db w)) as [|r rows IH]; cbn [existsb List.filter];
    [reflexivity |].
  intros H. apply orb_false_iff in H as [H1 H2]. rewrite H1. apply IH, H2.
Qed.

Lemma completion_invariant_db (w w' : world) :
  db w' = db w -> completion_invariant w -> completion_invariant w'.
Proof.
  intros E H sid row. unfold image_count. rewrite E. apply (H sid row).
Qed.

Lemma completion_invariant_initial : completion_invariant initial_world.
Proof. intros sid row H. cbn in H. rewrite lookup_empty in H. discriminate H. Qed.

Lemma completion_invariant_created (env : create_env) (data : Body.SubmissionCreate)
    (token : string) (w w' : world) :
  referenced (submission_uuid4 env) w = false ->
  db w' = {| submissions := <[submission_uuid4 env := created_row env data token]>
                              (submissions (db w));
             submission_images := submission_images (db w) |} ->
  completion_invariant w -> completion_invariant w'.
Proof.
  intros Hfresh E Hinv sid row. unfold image_count. rewrite E. cbn [submissions].
  change (length (Sql.images_of sid _)) with (image_count sid w).
  rewrite lookup_insert. case_decide as Hsid.
  - subst sid. intros [= <-]. cbn [status created_row].
    rewrite (referenced_false_count _ _ Hfresh).
    split; [right; reflexivity |]. split; [discriminate | cbn; lia].
  - apply Hinv.
Qed.

Lemma completion_invariant_after_insert (row : submission_image) (w w' : world) :
  db w' = after_insert row w ->
  completion_invariant w -> completion_invariant w'.
Proof.
  intros E Hinv sid r.
  assert (Hcount : image_count sid w' =
                   image_count sid w + (if String.eqb (submission_id row) sid then 1 else 0)).
  { rewrite <- (image_count_after_insert sid row w w).
    unfold image_count. rewrite E. reflexivity. }
  rewrite Hcount, E. unfold after_insert. cbn [submissions].
  destruct (String.eqb (submission_id row) sid) eqn:Hsid.
  - apply String.eqb_eq in Hsid. subst sid.
    replace (image_count (submission_id row) w + 1) with (S (image_count (submission_id row) w))
      by lia.
    destruct (length IMAGE_REQUIREMENTS <=? S (image_count (submission_id row) w))%nat eqn:Hle.
    + apply Nat.leb_le in Hle. rewrite lookup_alter_eq.
      destruct (submissions (db w) !! submission_id row) as [r0|]; [| discriminate].
      intros [= <-]. cbn [status Sql.with_status].
      split; [left; reflexivity | split; [intros _; exact Hle | reflexivity]].
    + apply Nat.leb_gt in Hle. intros Hr. destruct (Hinv _ _ Hr) as [H1 H2].
      split; [exact H1 |]. rewrite H2. lia.
  - apply String.eqb_neq in Hsid.
    assert (Hlook : (if (length IMAGE_REQUIREMENTS <=? S (image_count (submission_id row) w))%nat
                     then alter (Sql.with_status "complete") (submission_id row)
                            (submissions (db w))
                     else submissions (db w)) !! sid = submissions (db w) !! sid).
    { destruct (_ <=? _)%nat; [apply lookup_alter_ne; exact Hsid | reflexivity]. }
    rewrite Hlook, Nat.add_0_r. apply Hinv.
Qed.

Lemma handle_completion_invariant (rq : request) (w : world) :
  creations_unreferenced w [rq] = true ->
  completion_invariant w -> completion_invariant (snd (handle rq w)).
Proof.
  intros Hfresh Hinv.
  destruct (handle_db rq w) as [E | [(env & data & token & -> & _ & E) | [row E]]].
  - apply (completion_invariant_db w _ E Hinv).
  - cbn [creations_unreferenced] in Hfresh.
    rewrite andb_true_r in Hfresh. apply negb_true_iff in Hfresh.
    apply (completion_invariant_created env data token w _ Hfresh E Hinv).
  - apply (completion_invariant_after_insert row w _ E Hinv).
Qed.

Lemma serve_completion_invariant (rqs : list request) (w : world) :
  creations_unreferenced w rqs = true ->
  completion_invariant w -> completion_invariant (serve w rqs).
Proof.
  unfold serve. revert w. induction rqs as [|rq rqs IH]; intros w Hfresh Hinv;
    cbn [fold_left]; [exact Hinv |].
  cbn [creations_unreferenced] in Hfresh. apply andb_true_iff in Hfresh as [H1 H2].
  apply IH; [exact H2 |]. apply handle_completion_invariant; [| exact Hinv].
  cbn [creations_unreferenced]. rewrite H1. reflexivity.
Qed.

Lemma uploads_to_unreferenced (sid image_type : string) (ups : list (upload_env * UploadFile))
    (w : world) :
  creations_unreferenced w (uploads_to sid image_type ups) = true.
Proof.
  revert w. induction ups as [|up ups IH]; intros w; [reflexivity |].
  cbn [uploads_to map creations_unreferenced andb]. apply IH.
Qed.

Lemma handle_keeps_rows (rq : request) (w : world) (sid : string) :
  is_Some (status_of sid w) -> is_Some (status_of sid (snd (handle rq w))).
Proof.
  intros H.
  destruct (handle_db rq w) as [E | [(env & data & token & _ & _ & E) | [row E]]].
  - unfold status_of in *. rewrite E. exact H.
  - unfold status_of in *. rewrite E. cbn [submissions]. rewrite lookup_insert.
    case_decide; [eexists; reflexivity | exact H].
  - destruct (status_of_after_insert sid row w _ E) as [E' | [_ E']]; rewrite E';
      [exact H | eexists; reflexivity].
Qed.

Lemma serve_keeps_rows (rqs : list request) (w : world) (sid : string) :
  is_Some (status_of sid w) -> is_Some (status_of sid (serve w rqs)).
Proof.
  unfold serve. revert w. induction rqs as [|rq rqs IH]; intros w H; cbn [fold_left];
    [exact H | apply IH, handle_keeps_rows, H].
Qed.

Lemma clean_uploads_db (w w' : world) (ups : list (upload_env * UploadFile)) :
  submission_images (db w') = submission_images (db w) ->
  clean_uploads w ups -> clean_uploads w' ups.
Proof.
  intros E [H1 H2]. split; [| exact H2].
  eapply Forall_impl; [exact H1 |]. intros up [Ha Hb]. split; [exact Ha |].
  unfold image_id_taken in *. rewrite E. exact Hb.
Qed.

(** Uploads that meet no fault and draw new ids each add one row. *)
Lemma clean_uploads_count (sid image_type : string) (ups : list (upload_env * UploadFile))
    (w : world) :
  known_image_type image_type = true ->
  clean_uploads w ups ->
  image_count sid (serve w (uploads_to sid image_type ups)) = image_count sid w + length ups.
Proof.
  intros Hknown. revert w. induction ups as [|[env file] ups IH]; intros w [Hall Hnodup].
  - cbn. lia.
  - apply Forall_cons in Hall as [[Hstorage Hfresh] Hall].
    cbn [map fst] in Hnodup. apply NoDup_cons in Hnodup as [Hnotin Hnodup].
    cbn [fst snd] in *.
    unfold serve. cbn [uploads_to map fold_left fst snd handle].
    rewrite snd_bind_ret.
    destruct (upload_image_known env sid image_type file w Hknown Hstorage)
      as (v & prompt & _ & _ & E).
    rewrite Hfresh in E. rewrite E. cbn [snd].
    fold (uploads_to sid image_type ups).
    set (w1 := set_db _ _).
    change (fold_left _ (uploads_to sid image_type ups) w1)
      with (serve w1 (uploads_to sid image_type ups)).
    rewrite IH.
    + unfold w1. rewrite image_count_after_insert. cbn [uploaded_row submission_id].
      rewrite String.eqb_refl. cbn [length]. lia.
    + split; [| exact Hnodup].
      apply Forall_forall. intros up Hup.
      rewrite Forall_forall in Hall. destruct (Hall up Hup) as [Ha Hb].
      split; [exact Ha |].
      unfold w1. rewrite image_id_taken_after_insert, Hb. cbn [orb uploaded_row id].
      apply String.eqb_neq. intros Heq. apply Hnotin.
      rewrite Heq. apply list_elem_of_In.
      apply (in_map (fun up0 : upload_env * UploadFile => image_uuid4 (fst up0)) ups up).
      apply list_elem_of_In, Hup.
Qed.

(** C1: in every state that the application reaches from an empty
    database, a submission is complete exactly when it has at least eight
    image rows, whatever their image types and verdicts; in particular a
    new submission that then receives uploads of one and the same image
    type is complete exactly from the eighth upload on.  Submission ids
    are drawn by uuid4: none is one that image rows already refer to.  The
    new submission is one that the database takes: its vehicle year fits
    the 64-bit INTEGER of SQLite. *)
Theorem completion_by_count (rqs : list request) (env : create_env)
    (data : Body.SubmissionCreate) (token image_type : string)
    (ups : list (upload_env * UploadFile)) :
  creations_unreferenced initial_world rqs = true ->
  let w := serve initial_world rqs in
  (forall (sid : string) (row : submission),
      submissions (db w) !! sid = Some row ->
      (status row = "complete" <-> 8 <= image_count sid w)) /\
  (let sid := submission_uuid4 env in
   Sql.fits_integer (Body.vehicle_year data) = true ->
   submissions (db w) !! sid = None ->
   referenced sid w = false ->
   known_image_type image_type = true ->
   clean_uploads w ups ->
   status_of sid (serve w (PostSubmission env data token :: uploads_to sid image_type ups))
   = Some (if (8 <=? length ups)%nat then "complete" else "pending")).
Proof.
  intros Hfresh w.
  assert (Hinv : completion_invariant w).
  { apply serve_completion_invariant; [exact Hfresh | apply completion_invariant_initial]. }
  split.
  - intros sid row Hrow. apply (Hinv sid row Hrow).
  - intros sid Hyear Hnone Hunref Hknown Hclean.
    unfold serve. cbn [fold_left handle]. rewrite snd_bind_ret, create_submission_effect.
    fold sid. rewrite Hyear, Hnone. cbn [negb].
    set (w1 := set_db _ w).
    change (fold_left _ (uploads_to sid image_type ups) w1)
      with (serve w1 (uploads_to sid image_type ups)).
    assert (Hinv1 : completion_invariant w1).
    { apply (completion_invariant_created env data token w w1 Hunref eq_refl Hinv). }
    assert (Hinv2 : completion_invariant (serve w1 (uploads_to sid image_type ups))).
    { apply serve_completion_invariant; [apply uploads_to_unreferenced | exact Hinv1]. }
    assert (Hcount : image_count sid (serve w1 (uploads_to sid image_type ups)) = length ups).
    { rewrite clean_uploads_count; [| exact Hknown | apply (clean_uploads_db w); [reflexivity | exact Hclean]].
      change (image_count sid w1) with (image_count sid w).
      rewrite (referenced_false_count _ _ Hunref). reflexivity. }
    assert (Hsome : is_Some (status_of sid (serve w1 (uploads_to sid image_type ups)))).
    { apply serve_keeps_rows. unfold status_of, w1. cbn [db set_db submissions].
      rewrite lookup_insert_eq. eexists; reflexivity. }
    destruct Hsome as [st Hst]. rewrite Hst. f_equal.
    unfold status_of in Hst.
    destruct (submissions (db (serve w1 (uploads_to sid image_type ups))) !! sid) as [row|] eqn:Hrow;
      [| discriminate Hst].
    injection Hst as <-.
    destruct (Hinv2 sid row Hrow) as [Hcases Hiff]. rewrite Hcount in Hiff.
    change (length IMAGE_REQUIREMENTS) with 8 in Hiff.
    destruct (8 <=? length ups)%nat eqn:Hle.
    + apply Nat.leb_le in Hle. apply Hiff, Hle.
    + apply Nat.leb_gt in Hle. destruct Hcases as [Hc | Hp]; [| exact Hp].
      apply Hiff in Hc. lia.
Qed.

(** C1, on submission "s1" and eight uploads of its front view. *)
Lemma completion_by_count_witness :
  let rqs := demo_create :: uploads_to "s1" "front" demo_fronts in
  creations_unreferenced initial_world rqs = true /\
  (forall row : submission,
      submissions (db (serve initial_world rqs)) !! "s1" = Some row ->
      (status row = "complete" <-> 8 <= image_count "s1" (serve initial_world rqs))) /\
  clean_uploads initial_world demo_fronts /\
  status_of "s1" (serve initial_world rqs) = Some "complete".
Proof.
  intros rqs.
  assert (Hfresh : creations_unreferenced initial_world rqs = true) by (vm_compute; reflexivity).
  assert (Hclean : clean_uploads initial_world demo_fronts).
  { split; [repeat constructor |]. refine (bool_decide_unpack _ _). vm_compute. exact I. }
  split; [exact Hfresh |].
  destruct (completion_by_count rqs
              {| submission_uuid4 := "s2"; now_isoformat := "2024-05-02T09:30:00" |}
              {| Body.vehicle_make := "Honda"; Body.vehicle_model := "Civic";
                 Body.vehicle_year := 2019 |}
              "token" "front" [] Hfresh) as [Hiff _].
  split; [intros row Hrow; apply (Hiff "s1" row Hrow) |].
  split; [exact Hclean |].
  destruct (completion_by_count []
              {| submission_uuid4 := "s1"; now_isoformat := "2024-05-01T10:00:00" |}
              {| Body.vehicle_make := "Toyota"; Body.vehicle_model := "Corolla";
                 Body.vehicle_year := 2020 |}
              "token" "front" demo_fronts eq_refl) as [_ Hsame].
  exact (Hsame eq_refl eq_refl eq_refl eq_refl Hclean).
Defined.

(** ** The code on small inputs *)

Example splitext_jpg : OsPath.splitext "car.front.JPG" = ("car.front", ".JPG").
Proof. reflexivity. Qed.

Example splitext_hidden : OsPath.splitext "dir.d/.bashrc" = ("dir.d/.bashrc", "").
Proof. reflexivity. Qed.

Example join_uploads : OsPath.join "uploads" "s1_front.jpg" = "uploads/s1_front.jpg".
Proof. reflexivity. Qed.

Example verdict_yes_padded :
  fst (validate_image_with_ai (ChatReturns {| message := {| content := " YES " |} |})
         "uploads/s1_front.jpg" "front" initial_world)
  = Returns {| valid := true; reason := "Valid image" |}.
Proof. reflexivity. Qed.

Example verdict_blurry :
  fst (validate_image_with_ai
         (ChatReturns {| message := {| content := "Unclear, blurry photo" |} |})
         "uploads/s1_front.jpg" "front" initial_world)
  = Returns {| valid := false; reason := "Valid image" |}.
Proof. reflexivity. Qed.

Example verdict_unknown_type :
  validate_image_with_ai (ChatReturns {| message := {| content := "yes" |} |})
    "uploads/s1_roof.jpg" "roof" initial_world
  = (Returns {| valid := false; reason := "Validation error: 'roof'" |}, initial_world).
Proof. reflexivity. Qed.

Example seven_fronts_pending :
  status_of "s1" (serve initial_world
                    (demo_create :: uploads_to "s1" "front" (firstn 7 demo_fronts)))
  = Some "pending".
Proof. vm_compute. reflexivity. Qed.

Example report_after_two_uploads :
  let w := serve initial_world
             (demo_create :: uploads_to "s1" "front" (firstn 2 demo_fronts)) in
  fst (handle (GetReport (fun _ => true) "s1") w)
  = Returns (Report {| f_path := "reports/s1.pdf"; f_filename := "insurance_report_s1.pdf" |}).
Proof. vm_compute. reflexivity. Qed.

(** * Further properties of the code *)

(** ** The classifier: prompts, the call it makes, what it ignores *)

(** X1: An image type without an entry in [prompts] never reaches the model:
    the [KeyError] of the lookup is caught like any other failure, and its
    text, the repr of the image type, ends up in the reason. *)
Theorem classify_unknown_type (reply : chat_reply) (image_path image_type : string)
    (w : world) :
  known_image_type image_type = false ->
  validate_image_with_ai reply image_path image_type w =
    (Returns {| valid := false; reason := "Validation error: " ++ PyStr.repr image_type |}, w).
Proof.
  intros Hunknown.
  assert (Hnone : dict_lookup prompts image_type = None).
  { revert Hunknown. unfold known_image_type, IMAGE_REQUIREMENTS, prompts.
    cbn [existsb type dict_lookup orb].
    repeat (destruct (String.eqb _ image_type); [discriminate |]). reflexivity. }
  unfold validate_image_with_ai, try_except, bind, dict_getitem. rewrite Hnone.
  reflexivity.
Qed.

Lemma classify_unknown_type_witness :
  known_image_type "windshield" = false /\
  validate_image_with_ai (ChatReturns {| message := {| content := "yes" |} |})
    "uploads/s1_windshield.jpg" "windshield" initial_world =
    (Returns {| valid := false; reason := "Validation error: 'windshield'" |}, initial_world).
Proof.
  split; [reflexivity |].
  apply (classify_unknown_type _ "uploads/s1_windshield.jpg" "windshield" initial_world eq_refl).
Defined.

(** X2: For an image type of the whitelist the classifier calls the model
    exactly once, with the model name, the prompt of that very type and the
    path of the image, and touches neither the files nor the tables. *)
Theorem classify_calls_model_once (reply : chat_reply) (image_path image_type : string)
    (w : world) :
  known_image_type image_type = true ->
  exists prompt : string,
    dict_lookup prompts image_type = Some prompt /\
    let w' := snd (validate_image_with_ai reply image_path image_type w) in
    chat_log w' = (chat_log w ++ [{| call_model := "llava:latest"; call_content := prompt;
                                     call_images := [image_path] |}])%list /\
    files w' = files w /\ db w' = db w.
Proof.
  intros Hknown. destruct (known_image_type_prompt _ Hknown) as [prompt Hprompt].
  exists prompt. split; [exact Hprompt |].
  destruct (validate_image_with_ai_returns reply image_path image_type w) as [v ->].
  rewrite Hprompt. repeat split.
Qed.

Lemma classify_calls_model_once_witness :
  known_image_type "vin" = true /\
  length (chat_log (snd (validate_image_with_ai (ChatRaises "TimeoutError" "timed out")
                           "uploads/s1_vin.jpg" "vin" initial_world))) = 1.
Proof.
  split; [reflexivity |].
  destruct (classify_calls_model_once (ChatRaises "TimeoutError" "timed out")
              "uploads/s1_vin.jpg" "vin" initial_world eq_refl) as (prompt & _ & Hlog & _).
  cbv zeta in Hlog. rewrite Hlog. reflexivity.
Defined.

Lemma dict_lookup_In (d : list (string * string)) (k v : string) :
  dict_lookup d k = Some v -> In v (map snd d).
Proof.
  induction d as [|[k' v'] d IH]; cbn [dict_lookup map snd]; [discriminate |].
  destruct (String.eqb k' k); [intros [= ->]; left; reflexivity | intros H; right; apply IH, H].
Qed.

Lemma dict_lookup_injective (d : list (string * string)) (k1 k2 v : string) :
  NoDup (map snd d) ->
  dict_lookup d k1 = Some v -> dict_lookup d k2 = Some v -> k1 = k2.
Proof.
  induction d as [|[k' v'] d IH]; cbn [dict_lookup map snd]; [discriminate |].
  intros Hnodup. apply NoDup_cons in Hnodup as [Hnotin Hnodup].
  rewrite list_elem_of_In in Hnotin.
  destruct (String.eqb k' k1) eqn:E1, (String.eqb k' k2) eqn:E2.
  - apply String.eqb_eq in E1, E2. congruence.
  - intros [= ->] H2. destruct (Hnotin (dict_lookup_In _ _ _ H2)).
  - intros H1 [= ->]. destruct (Hnotin (dict_lookup_In _ _ _ H1)).
  - apply IH, Hnodup.
Qed.

(** X3: The prompt table has an entry exactly for the image types that uploads
    accept, and no two image types share a prompt. *)
Theorem prompts_match_requirements (t1 t2 : string) :
  (known_image_type t1 = true <-> is_Some (dict_lookup prompts t1)) /\
  (forall prompt : string,
      dict_lookup prompts t1 = Some prompt -> dict_lookup prompts t2 = Some prompt -> t1 = t2).
Proof.
  split; [split |].
  - intros H. destruct (known_image_type_prompt _ H) as [p ->]. eexists; reflexivity.
  - destruct (known_image_type t1) eqn:E; [reflexivity |]. intros [p Hp]. exfalso.
    revert E Hp. unfold known_image_type, IMAGE_REQUIREMENTS, prompts.
    cbn [existsb type dict_lookup orb].
    repeat (destruct (String.eqb _ t1); [discriminate |]). discriminate.
  - intros prompt. apply dict_lookup_injective.
    refine (bool_decide_unpack _ _). vm_compute. exact I.
Qed.

Lemma isspace_lower_char (c : ascii) : PyStr.isspace (PyStr.lower_char c) = PyStr.isspace c.
Proof. destruct c as [[] [] [] [] [] [] [] []]; reflexivity. Qed.

Lemma lower_app (s t : string) : PyStr.lower (s ++ t) = PyStr.lower s ++ PyStr.lower t.
Proof.
  induction s as [|c s IH]; [reflexivity |].
  rewrite append_cons. cbn [PyStr.lower]. rewrite IH, append_cons. reflexivity.
Qed.

Lemma blank_inv (c : ascii) (s : string) :
  blank (String c s) -> PyStr.isspace c = true /\ blank s.
Proof.
  intros H. split; [apply H; left; reflexivity | intros a Ha; apply H; right; exact Ha].
Qed.

Lemma blank_lower (s : string) : blank s -> blank (PyStr.lower s).
Proof.
  induction s as [|c s IH]; intros H; [apply blank_nil |].
  apply blank_inv in H as [Hc Hs]. cbn [PyStr.lower].
  apply blank_cons; [rewrite isspace_lower_char; exact Hc | apply IH, Hs].
Qed.

Lemma lstrip_blank_app (l s : string) : blank l -> PyStr.lstrip (l ++ s) = PyStr.lstrip s.
Proof.
  induction l as [|c l IH]; intros H; [reflexivity |].
  apply blank_inv in H as [Hc Hl]. rewrite append_cons. cbn [PyStr.lstrip].
  rewrite Hc. apply IH, Hl.
Qed.

Lemma rstrip_blank (r : string) : blank r -> PyStr.rstrip r = "".
Proof.
  induction r as [|c r IH]; intros H; [reflexivity |].
  apply blank_inv in H as [Hc Hr]. cbn [PyStr.rstrip]. rewrite (IH Hr), Hc. reflexivity.
Qed.

Lemma rstrip_app_blank (s r : string) : blank r -> PyStr.rstrip (s ++ r) = PyStr.rstrip s.
Proof.
  intros Hr. induction s as [|c s IH]; [apply rstrip_blank, Hr |].
  rewrite append_cons. cbn [PyStr.rstrip]. rewrite IH. reflexivity.
Qed.

Lemma strip_app_blank (s r : string) : blank r -> PyStr.strip (s ++ r) = PyStr.strip s.
Proof.
  intros Hr. unfold PyStr.strip. induction s as [|c s IH].
  - change ("" ++ r) with r. rewrite <- (append_nil_r r) at 1.
    rewrite lstrip_blank_app by exact Hr. reflexivity.
  - rewrite append_cons. cbn [PyStr.lstrip]. destruct (PyStr.isspace c); [exact IH |].
    rewrite <- append_cons. apply rstrip_app_blank, Hr.
Qed.

(** Padding a text with white space does not change what [strip] leaves. *)
Lemma strip_padded (l s r : string) :
  blank l -> blank r -> PyStr.strip (l ++ s ++ r) = PyStr.strip s.
Proof.
  intros Hl Hr. unfold PyStr.strip. rewrite lstrip_blank_app by exact Hl.
  apply strip_app_blank, Hr.
Qed.

(** X4: The classifier reads the model's text only through its lower-cased,
    stripped form: two responses that differ in letter case and in white
    space around them get the same verdict, and the same call is made. *)
Theorem classify_case_and_padding (a b l r image_path image_type : string) (w : world) :
  PyStr.lower a = PyStr.lower b ->
  blank l -> blank r ->
  validate_image_with_ai (ChatReturns {| message := {| content := l ++ a ++ r |} |})
    image_path image_type w
  = validate_image_with_ai (ChatReturns {| message := {| content := b |} |})
      image_path image_type w.
Proof.
  intros Hcase Hl Hr.
  assert (Hnorm : PyStr.strip (PyStr.lower (l ++ a ++ r)) = PyStr.strip (PyStr.lower b)).
  { rewrite !lower_app, Hcase. apply strip_padded; apply blank_lower; assumption. }
  unfold validate_image_with_ai, try_except, bind, dict_getitem.
  destruct (dict_lookup prompts image_type) as [prompt|]; [| reflexivity].
  unfold ollama_chat, bind, modify, ret. cbn [content message].
  rewrite Hnorm. reflexivity.
Qed.

Lemma classify_case_and_padding_witness :
  validate_image_with_ai (ChatReturns {| message := {| content := "  YES, Clearly " |} |})
    "uploads/s1_front.jpg" "front" initial_world
  = validate_image_with_ai (ChatReturns {| message := {| content := "yes, clearly" |} |})
      "uploads/s1_front.jpg" "front" initial_world.
Proof.
  apply (classify_case_and_padding "YES, Clearly" "yes, clearly" "  " " ").
  - reflexivity.
  - intros c [<- | [<- | []]]; reflexivity.
  - intros c [<- | []]; reflexivity.
Defined.

(** ** What one request does to the whole world *)

Lemma upload_path_not_report (sid image_type : string) (file : UploadFile) (x : string) :
  upload_filepath sid image_type file <> report_path x.
Proof.
  unfold upload_filepath, OsPath.join, report_path.
  destruct (PyStr.startswith "/" (upload_filename sid image_type file)) eqn:E.
  - apply startswith_spec in E as [post ->]. discriminate.
  - discriminate.
Qed.

(** The world after an upload: either nothing but (possibly) the target
    file changed, or the file is stored, the model was called once and the
    tables are as before or one row longer. *)
Lemma upload_image_world (env : upload_env) (sid image_type : string) (file : UploadFile)
    (w : world) :
  let w' := snd (upload_image env sid image_type file w) in
  let path := upload_filepath sid image_type file in
  (db w' = db w /\ chat_log w' = chat_log w /\
   (files w' = files w \/
    exists n : nat, files w' = <[path := Bytes (firstn n (file_bytes file))]> (files w)))
  \/
  (exists prompt : string,
      known_image_type image_type = true /\
      dict_lookup prompts image_type = Some prompt /\
      files w' = <[path := Bytes (file_bytes file)]> (files w) /\
      chat_log w' = (chat_log w ++ [{| call_model := "llava:latest"; call_content := prompt;
                                       call_images := [path] |}])%list /\
      (db w' = db w \/
       exists v : verdict,
         image_id_taken (image_uuid4 env) w = false /\
         db w' = after_insert (uploaded_row env sid image_type file v) w)).
Proof.
  intros w' path. subst w' path.
  destruct (known_image_type image_type) eqn:Hknown.
  - destruct (storage env) eqn:Hstorage.
    + right. destruct (upload_image_known env sid image_type file w Hknown Hstorage)
        as (v & prompt & Hprompt & _ & E).
      exists prompt. rewrite E. split; [reflexivity | split; [exact Hprompt |]].
      destruct (image_id_taken (image_uuid4 env) w) eqn:Htaken; cbn [snd].
      * repeat split. left; reflexivity.
      * repeat split. right. exists v. split; reflexivity.
    + left. destruct (upload_image_fault env sid image_type file w Hknown)
        as (m & fs & -> & Hfs); [rewrite Hstorage; discriminate |].
      cbn [snd db chat_log files]. repeat split.
      destruct Hfs as [-> | [n ->]]; [left; reflexivity | right; exists n; reflexivity].
    + left. destruct (upload_image_fault env sid image_type file w Hknown)
        as (m & fs & -> & Hfs); [rewrite Hstorage; discriminate |].
      cbn [snd db chat_log files]. repeat split.
      destruct Hfs as [-> | [n ->]]; [left; reflexivity | right; exists n; reflexivity].
  - left. rewrite upload_image_unknown by exact Hknown. repeat split. left; reflexivity.
Qed.

(** The report of a submission that has a row: the pages are saved under
    the report path and that path is returned. *)
Lemma get_submission_report_existing (is_image : list Byte.byte -> bool) (sid : string)
    (row : submission) (w : world) :
  submissions (db w) !! sid = Some row ->
  get_submission_report is_image sid w =
    (Returns {| f_path := report_path sid;
                f_filename := "insurance_report_" ++ sid ++ ".pdf" |},
     set_files <[report_path sid := Pdf (report_pages is_image sid row w)]> w).
Proof.
  intros H. unfold get_submission_report, generate_pdf_report.
  unfold bind at 1. unfold bind at 1. unfold with_db.
  unfold bind at 1. unfold Sql.select_submission at 1. unfold gets at 1.
  unfold bind at 1. unfold Sql.select_images at 1. unfold gets at 1.
  unfold ret at 1. rewrite H, set_db_same.
  unfold report_pages, report_canvas, report_header, report_path.
  cbn [letter snd fst row_getitem].
  unfold bind, ret, gets, modify.
  destruct (fold_left _ _ _) as [c y]. reflexivity.
Qed.

(** ** Rows are kept: the tables only grow *)

Lemma handle_images (rq : request) (w : world) :
  exists added : list submission_image,
    submission_images (db (snd (handle rq w))) = (submission_images (db w) ++ added)%list.
Proof.
  destruct (handle_db rq w) as [E | [(env & data & token & _ & _ & E) | [row E]]]; rewrite E.
  - exists []. rewrite app_nil_r. reflexivity.
  - exists []. cbn [submission_images]. rewrite app_nil_r. reflexivity.
  - exists [row]. reflexivity.
Qed.

(** X5: No request removes or rewrites an image row: the rows present before
    a sequence of requests are, in the same order, the first rows after
    it. *)
Theorem image_rows_append_only (w : world) (rqs : list request) :
  exists added : list submission_image,
    submission_images (db (serve w rqs)) = (submission_images (db w) ++ added)%list.
Proof.
  unfold serve. revert w. induction rqs as [|rq rqs IH]; intros w; cbn [fold_left].
  - exists []. rewrite app_nil_r. reflexivity.
  - destruct (IH (snd (handle rq w))) as [added2 E2].
    destruct (handle_images rq w) as [added1 E1].
    exists (added1 ++ added2)%list. rewrite E2, E1, app_assoc. reflexivity.
Qed.

Lemma same_but_status_refl (r : submission) : same_but_status r r.
Proof. repeat split. Qed.

Lemma same_but_status_trans (r1 r2 r3 : submission) :
  same_but_status r1 r2 -> same_but_status r2 r3 -> same_but_status r1 r3.
Proof. unfold same_but_status. intros (?&?&?&?&?) (?&?&?&?&?). repeat split; congruence. Qed.

Lemma handle_keeps_data (rq : request) (w : world) (sid : string) (row : submission) :
  submissions (db w) !! sid = Some row ->
  exists row' : submission,
    submissions (db (snd (handle rq w))) !! sid = Some row' /\ same_but_status row row'.
Proof.
  intros H.
  destruct (handle_db rq w) as [E | [(env & data & token & _ & Hnone & E) | [r E]]]; rewrite E.
  - exists row. split; [exact H | apply same_but_status_refl].
  - exists row. split; [| apply same_but_status_refl]. cbn [submissions].
    rewrite lookup_insert_ne; [exact H |]. intros Heq. rewrite Heq in Hnone. congruence.
  - unfold after_insert. cbn [submissions].
    destruct (_ <=? _)%nat; [| exists row; split; [exact H | apply same_but_status_refl]].
    rewrite lookup_alter. case_decide as Hsid.
    + subst sid. rewrite H. eexists. split; [reflexivity | repeat split].
    + exists row. split; [exact H | apply same_but_status_refl].
Qed.

(** X6: A submission row is never deleted and, its status apart, never
    changed: owner, vehicle and creation date stay what [create_submission]
    wrote, whatever requests follow. *)
Theorem submission_rows_keep_data (w : world) (rqs : list request) (sid : string)
    (row : submission) :
  submissions (db w) !! sid = Some row ->
  exists row' : submission,
    submissions (db (serve w rqs)) !! sid = Some row' /\ same_but_status row row'.
Proof.
  unfold serve. revert w row. induction rqs as [|rq rqs IH]; intros w row H; cbn [fold_left].
  - exists row. split; [exact H | apply same_but_status_refl].
  - destruct (handle_keeps_data rq w sid row H) as (r1 & H1 & S1).
    destruct (IH _ r1 H1) as (r2 & H2 & S2).
    exists r2. split; [exact H2 | apply (same_but_status_trans _ _ _ S1 S2)].
Qed.

Lemma submission_rows_keep_data_witness :
  let w := serve initial_world [demo_create] in
  exists row' : submission,
    submissions (db (serve w (uploads_to "s1" "front" demo_fronts))) !! "s1" = Some row' /\
    vehicle_make row' = "Toyota" /\ user_id row' = "token".
Proof.
  intros w.
  destruct (submission_rows_keep_data w (uploads_to "s1" "front" demo_fronts) "s1"
              {| user_id := "token"; vehicle_make := "Toyota"; vehicle_model := "Corolla";
                 vehicle_year := 2020; status := "pending";
                 created_at := "2024-05-01T10:00:00" |} eq_refl)
    as (row' & Hrow & Huser & Hmake & _).
  exists row'. split; [exact Hrow | split; [exact Hmake | exact Huser]].
Defined.

(** ** What every recorded image row satisfies *)

Lemma image_id_taken_false (u : string) (w : world) :
  image_id_taken u w = false -> u ∉ map id (submission_images (db w)).
Proof.
  unfold image_id_taken. intros H Hin. apply list_elem_of_In, in_map_iff in Hin as (r & <- & Hr).
  assert (existsb (fun r0 => String.eqb (id r0) (id r)) (submission_images (db w)) = true).
  { apply existsb_exists. exists r. split; [exact Hr | apply String.eqb_refl]. }
  congruence.
Qed.

Lemma image_row_ok_step (w w' : world) (row : submission_image) :
  image_row_ok w row ->
  (files w' = files w \/
   (exists (p : string) (d : list Byte.byte), files w' = <[p := Bytes d]> (files w)) \/
   (exists (x : string) (pages : list (list draw_op)),
       files w' = <[report_path x := Pdf pages]> (files w))) ->
  (exists extra : list chat_call, chat_log w' = (chat_log w ++ extra)%list) ->
  image_row_ok w' row.
Proof.
  intros (Hknown & Hres & [file Hpath] & [data Hfile] & (prompt & Hprompt & Hcall)) Hfiles
    [extra Hchat].
  split; [exact Hknown | split; [exact Hres | split; [exists file; exact Hpath | split]]].
  - destruct Hfiles as [-> | [(p & d & ->) | (x & pages & ->)]].
    + exists data. exact Hfile.
    + rewrite lookup_insert. case_decide; [eexists; reflexivity | exists data; exact Hfile].
    + rewrite lookup_insert_ne; [exists data; exact Hfile |].
      rewrite Hpath. intros Heq. symmetry in Heq. apply upload_path_not_report in Heq. exact Heq.
  - exists prompt. split; [exact Hprompt |]. rewrite Hchat. apply in_or_app. left. exact Hcall.
Qed.

Lemma store_invariant_step (w w' : world) :
  store_invariant w ->
  submission_images (db w') = submission_images (db w) ->
  (files w' = files w \/
   (exists (p : string) (d : list Byte.byte), files w' = <[p := Bytes d]> (files w)) \/
   (exists (x : string) (pages : list (list draw_op)),
       files w' = <[report_path x := Pdf pages]> (files w))) ->
  (exists extra : list chat_call, chat_log w' = (chat_log w ++ extra)%list) ->
  store_invariant w'.
Proof.
  intros [Hnodup Hall] Himages Hfiles Hchat. unfold store_invariant. rewrite Himages.
  split; [exact Hnodup |].
  eapply Forall_impl; [exact Hall |]. intros row Hrow.
  apply (image_row_ok_step w w' row Hrow Hfiles Hchat).
Qed.

Lemma handle_store_invariant (rq : request) (w : world) :
  store_invariant w -> store_invariant (snd (handle rq w)).
Proof.
  intros Hinv.
  destruct rq as [env data token | env sid ty file | is_image sid];
    unfold handle; rewrite snd_bind_ret.
  - rewrite create_submission_effect.
    destruct (negb (Sql.fits_integer (Body.vehicle_year data))); [exact Hinv |].
    destruct (submissions (db w) !! submission_uuid4 env); [exact Hinv |].
    apply (store_invariant_step w); [exact Hinv | reflexivity | left; reflexivity |].
    exists []. cbn. rewrite app_nil_r. reflexivity.
  - destruct (upload_image_world env sid ty file w)
      as [(Hdb & Hchat & Hfiles) |
          (prompt & Hknown & Hprompt & Hfiles & Hchat & Hdb)].
    + apply (store_invariant_step w); [exact Hinv | rewrite Hdb; reflexivity | |].
      * destruct Hfiles as [E | [n E]]; [left; exact E | right; left; eexists _, _; exact E].
      * exists []. rewrite Hchat, app_nil_r. reflexivity.
    + destruct Hdb as [Hdb | (v & Hfresh & Hdb)].
      * apply (store_invariant_step w); [exact Hinv | rewrite Hdb; reflexivity | |].
        -- right; left. eexists _, _. exact Hfiles.
        -- eexists. exact Hchat.
      * destruct Hinv as [Hnodup Hall]. unfold store_invariant. rewrite Hdb.
        unfold after_insert. cbn [submission_images].
        split.
        -- rewrite map_app. cbn [map uploaded_row id]. apply NoDup_app.
           split; [exact Hnodup | split; [| apply NoDup_singleton]].
           intros u Hu Hu'. apply list_elem_of_singleton in Hu'. subst u.
           apply (image_id_taken_false _ _ Hfresh Hu).
        -- apply Forall_app. split.
           ++ eapply Forall_impl; [exact Hall |]. intros row Hrow.
              apply (image_row_ok_step w _ row Hrow).
              ** right; left. eexists _, _. exact Hfiles.
              ** eexists. exact Hchat.
           ++ apply Forall_singleton. unfold image_row_ok.
              cbn [uploaded_row image_type validation_result image_path submission_id].
              split; [exact Hknown | split; [| split; [| split]]].
              ** destruct (valid v); [left | right]; reflexivity.
              ** exists file. reflexivity.
              ** rewrite Hfiles, lookup_insert_eq. eexists; reflexivity.
              ** exists prompt. split; [exact Hprompt |].
                 rewrite Hchat. apply in_or_app. right. left. reflexivity.
  - destruct (submissions (db w) !! sid) as [row|] eqn:Hrow.
    + rewrite (get_submission_report_existing is_image sid row w Hrow). cbn [snd].
      apply (store_invariant_step w); [exact Hinv | reflexivity | |].
      * right; right. eexists _, _. reflexivity.
      * exists []. cbn. rewrite app_nil_r. reflexivity.
    + rewrite get_submission_report_missing by exact Hrow. exact Hinv.
Qed.

Lemma serve_store_invariant (rqs : list request) :
  store_invariant (serve initial_world rqs).
Proof.
  assert (H : forall w, store_invariant w -> store_invariant (serve w rqs)).
  { unfold serve. induction rqs as [|rq rqs IH]; intros w Hw; cbn [fold_left];
      [exact Hw | apply IH, handle_store_invariant, Hw]. }
  apply H. split; [apply NoDup_nil_2 | apply Forall_nil_2].
Qed.

(** X7: Every image row that the application ever records carries an image
    type of the whitelist, the verdict "yes" or "no", and the upload path
    computed from its own submission id and image type. *)
Theorem recorded_rows_wellformed (rqs : list request) (row : submission_image) :
  In row (submission_images (db (serve initial_world rqs))) ->
  In (image_type row) (map type IMAGE_REQUIREMENTS) /\
  (validation_result row = "yes" \/ validation_result row = "no") /\
  exists file : UploadFile,
    image_path row = upload_filepath (submission_id row) (image_type row) file.
Proof.
  intros Hin. destruct (serve_store_invariant rqs) as [_ Hall].
  rewrite Forall_forall in Hall.
  destruct (Hall row (proj2 (list_elem_of_In _ _) Hin)) as (Hknown & Hres & Hpath & _).
  split; [apply known_image_type_spec, Hknown | split; [exact Hres | exact Hpath]].
Qed.

(** X9: No verdict is recorded without the model having been asked: for every
    image row the call log holds a call of llava with the prompt of the
    row's image type and the row's path as the only image. *)
Theorem recorded_verdict_has_model_call (rqs : list request) (row : submission_image) :
  In row (submission_images (db (serve initial_world rqs))) ->
  exists prompt : string,
    dict_lookup prompts (image_type row) = Some prompt /\
    In {| call_model := "llava:latest"; call_content := prompt;
          call_images := [image_path row] |} (chat_log (serve initial_world rqs)).
Proof.
  intros Hin. destruct (serve_store_invariant rqs) as [_ Hall].
  rewrite Forall_forall in Hall.
  destruct (Hall row (proj2 (list_elem_of_In _ _) Hin)) as (_ & _ & _ & _ & Hcall).
  exact Hcall.
Qed.

Lemma recorded_rows_wellformed_witness :
  let rqs := demo_create :: uploads_to "s1" "front" (firstn 1 demo_fronts) in
  In demo_row (submission_images (db (serve initial_world rqs))) /\
  In (image_type demo_row) (map type IMAGE_REQUIREMENTS) /\
  (validation_result demo_row = "yes" \/ validation_result demo_row = "no").
Proof.
  intros rqs.
  assert (Hin : In demo_row (submission_images (db (serve initial_world rqs))))
    by (left; reflexivity).
  split; [exact Hin |].
  destruct (recorded_rows_wellformed rqs demo_row Hin) as (H1 & H2 & _).
  split; [exact H1 | exact H2].
Defined.

Lemma recorded_verdict_has_model_call_witness :
  let rqs := demo_create :: uploads_to "s1" "front" (firstn 1 demo_fronts) in
  In demo_row (submission_images (db (serve initial_world rqs))) /\
  exists prompt : string,
    dict_lookup prompts "front" = Some prompt /\
    In {| call_model := "llava:latest"; call_content := prompt;
          call_images := ["uploads/s1_front.jpg"] |} (chat_log (serve initial_world rqs)).
Proof.
  intros rqs.
  assert (Hin : In demo_row (submission_images (db (serve initial_world rqs))))
    by (left; reflexivity).
  split; [exact Hin |].
  apply (recorded_verdict_has_model_call rqs demo_row Hin).
Defined.

(** ** The report *)

Lemma image_ops_app (l1 l2 : list draw_op) :
  image_ops (l1 ++ l2) = (image_ops l1 ++ image_ops l2)%list.
Proof. unfold image_ops. apply flat_map_app. Qed.

Lemma drawn_showPage (c : canvas) : drawn (Canvas.showPage c) = drawn c.
Proof.
  unfold drawn, Canvas.showPage. cbn [shown current].
  rewrite flat_map_app. cbn [flat_map image_ops]. rewrite !app_nil_r. reflexivity.
Qed.

Lemma saved_pages_drawn (c : canvas) : flat_map image_ops (Canvas.saved_pages c) = drawn c.
Proof.
  unfold drawn, Canvas.saved_pages. destruct (current c) as [|op ops].
  - cbn [image_ops flat_map]. rewrite app_nil_r. reflexivity.
  - rewrite flat_map_app. cbn [flat_map]. rewrite app_nil_r. reflexivity.
Qed.

(** One turn of the loop: the page is turned when [y_position] is below
    200, then a readable image is added to the page in progress, 120
    points under [y_position], and [y_position] goes down by 180; an
    unreadable one adds nothing. *)
Lemma report_block_effect (is_image : list Byte.byte -> bool) (fs : gmap string file_data)
    (height : Z) (c : canvas) (y : Z) (img : submission_image) :
  let c0 := if (y <? 200)%Z then Canvas.showPage c else c in
  let y0 := if (y <? 200)%Z then (height - 72)%Z else y in
  let readable := image_readable is_image fs (image_path img) in
  exists c1 : canvas,
    report_block is_image fs height (c, y) img = (c1, if readable then (y0 - 180)%Z else y0) /\
    shown c1 = shown c0 /\
    image_ops (current c1) =
      (image_ops (current c0) ++ (if readable then [(image_path img, (y0 - 120)%Z)] else []))%list.
Proof.
  intros c0 y0 readable. subst c0 y0 readable. unfold report_block.
  destruct (y <? 200)%Z; destruct (image_readable is_image fs (image_path img));
    eexists; (split; [reflexivity |]); split; try reflexivity;
    cbn [Canvas.draw current shown]; rewrite ?image_ops_app; cbn [image_ops flat_map];
    rewrite ?app_nil_r; reflexivity.
Qed.

Lemma report_block_drawn (is_image : list Byte.byte -> bool) (fs : gmap string file_data)
    (height : Z) (st : canvas * Z) (img : submission_image) :
  map fst (drawn (fst (report_block is_image fs height st img))) =
  (map fst (drawn (fst st)) ++
   (if image_readable is_image fs (image_path img) then [image_path img] else []))%list.
Proof.
  destruct st as [c y].
  destruct (report_block_effect is_image fs height c y img) as (c1 & -> & Hshown & Hops).
  cbn [fst]. unfold drawn at 1. rewrite Hshown, Hops.
  assert (Hc0 : (flat_map image_ops (shown (if (y <? 200)%Z then Canvas.showPage c else c)) ++
                 image_ops (current (if (y <? 200)%Z then Canvas.showPage c else c)))%list
                = drawn c).
  { destruct (y <? 200)%Z; [apply drawn_showPage | reflexivity]. }
  rewrite app_assoc, Hc0, map_app.
  destruct (image_readable is_image fs (image_path img)); reflexivity.
Qed.

Lemma fold_report_block_drawn (is_image : list Byte.byte -> bool) (fs : gmap string file_data)
    (height : Z) (images : list submission_image) (st : canvas * Z) :
  map fst (drawn (fst (fold_left (report_block is_image fs height) images st))) =
  (map fst (drawn (fst st)) ++
   map image_path (List.filter (fun img => image_readable is_image fs (image_path img)) images))%list.
Proof.
  revert st. induction images as [|img images IH]; intros st; cbn [fold_left List.filter map].
  - rewrite app_nil_r. reflexivity.
  - rewrite IH, report_block_drawn, <- app_assoc.
    destruct (image_readable is_image fs (image_path img)); reflexivity.
Qed.

(** X10: The saved report shows one image per image row of the submission
    whose stored file can be read, in the order of the rows; rows whose
    file is missing or unreadable are left out without an error, and two
    rows of the same image type are both shown. *)
Theorem report_shows_readable_images (is_image : list Byte.byte -> bool) (sid : string)
    (row : submission) (w : world) :
  submissions (db w) !! sid = Some row ->
  exists pages : list (list draw_op),
    files (snd (get_submission_report is_image sid w)) !! report_path sid = Some (Pdf pages) /\
    map fst (flat_map image_ops pages) =
      map image_path
        (List.filter (fun img => image_readable is_image (files w) (image_path img))
           (Sql.images_of sid (db w))).
Proof.
  intros Hrow. rewrite (get_submission_report_existing is_image sid row w Hrow).
  exists (report_pages is_image sid row w). split.
  - cbn [snd set_files files]. apply lookup_insert_eq.
  - unfold report_pages, report_canvas. rewrite saved_pages_drawn, fold_report_block_drawn.
    reflexivity.
Qed.

Lemma report_shows_readable_images_witness :
  let w := serve initial_world (demo_create :: uploads_to "s1" "front" (firstn 2 demo_fronts)) in
  exists pages : list (list draw_op),
    files (snd (get_submission_report (fun _ => true) "s1" w)) !! report_path "s1"
      = Some (Pdf pages) /\
    map fst (flat_map image_ops pages) = ["uploads/s1_front.jpg"; "uploads/s1_front.jpg"].
Proof.
  intros w.
  destruct (report_shows_readable_images (fun _ => true) "s1"
              {| user_id := "token"; vehicle_make := "Toyota"; vehicle_model := "Corolla";
                 vehicle_year := 2020; status := "pending";
                 created_at := "2024-05-01T10:00:00" |} w eq_refl) as (pages & Hfile & Himgs).
  exists pages. split; [exact Hfile |]. rewrite Himgs. reflexivity.
Defined.

Lemma report_block_page_inv (is_image : list Byte.byte -> bool) (fs : gmap string file_data)
    (st : canvas * Z) (img : submission_image) :
  page_inv st -> page_inv (report_block is_image fs 792 st img).
Proof.
  destruct st as [c y]. unfold page_inv. cbn [fst snd].
  intros (Hshown & Hroom & Hlow & Hdrawn).
  destruct (report_block_effect is_image fs 792 c y img) as (c1 & -> & Hs1 & Hops).
  cbn [fst snd]. unfold drawn. rewrite Hs1, Hops.
  assert (Hn : length (image_ops (current c)) <= 3) by lia.
  destruct (y <? 200)%Z eqn:Hy;
    [apply Z.ltb_lt in Hy | apply Z.ltb_ge in Hy];
    destruct (image_readable is_image fs (image_path img));
    cbn [Canvas.showPage shown current image_ops flat_map length];
    rewrite ?length_app, ?app_nil_r; cbn [length];
    (split; [| split; [| split]]);
    try lia;
    try exact Hshown;
    try (apply Forall_app; split; [exact Hshown | apply Forall_singleton; exact Hn]).
  - rewrite flat_map_app. cbn [flat_map]. rewrite app_nil_r.
    apply Forall_app. split; [exact Hdrawn | apply Forall_singleton; cbn [snd]; lia].
  - rewrite flat_map_app. cbn [flat_map]. rewrite app_nil_r. exact Hdrawn.
  - rewrite app_assoc. apply Forall_app.
    split; [exact Hdrawn | apply Forall_singleton; cbn [snd]; lia].
  - exact Hdrawn.
Qed.

Lemma fold_report_block_page_inv (is_image : list Byte.byte -> bool)
    (fs : gmap string file_data) (images : list submission_image) (st : canvas * Z) :
  page_inv st -> page_inv (fold_left (report_block is_image fs 792) images st).
Proof.
  revert st. induction images as [|img images IH]; intros st H; cbn [fold_left];
    [exact H | apply IH, report_block_page_inv, H].
Qed.

(** X11: However many images a submission has, the saved report puts at most
    three of them on a page, and draws each one between 80 and 600 points
    from the bottom of the 792-point page. *)
Theorem report_pagination (is_image : list Byte.byte -> bool) (sid : string)
    (row : submission) (w : world) :
  submissions (db w) !! sid = Some row ->
  exists pages : list (list draw_op),
    files (snd (get_submission_report is_image sid w)) !! report_path sid = Some (Pdf pages) /\
    Forall (fun page => length (image_ops page) <= 3) pages /\
    Forall (fun py => (80 <= snd py <= 600)%Z) (flat_map image_ops pages).
Proof.
  intros Hrow. rewrite (get_submission_report_existing is_image sid row w Hrow).
  exists (report_pages is_image sid row w). split.
  - cbn [snd set_files files]. apply lookup_insert_eq.
  - assert (Hinv : page_inv (report_canvas is_image sid row w)).
    { unfold report_canvas. apply fold_report_block_page_inv.
      unfold page_inv, drawn. cbn. repeat split; try lia; constructor. }
    destruct Hinv as (Hshown & Hroom & Hlow & Hdrawn).
    unfold report_pages. split; [| rewrite saved_pages_drawn; exact Hdrawn].
    unfold Canvas.saved_pages.
    destruct (current (fst (report_canvas is_image sid row w))) as [|op ops] eqn:Hcur;
      [exact Hshown |].
    apply Forall_app. split; [exact Hshown |]. apply Forall_singleton.
    lia.
Qed.

Lemma report_pagination_witness :
  let w := serve initial_world (demo_create :: uploads_to "s1" "front" demo_fronts) in
  exists pages : list (list draw_op),
    files (snd (get_submission_report (fun _ => true) "s1" w)) !! report_path "s1"
      = Some (Pdf pages) /\
    Forall (fun page => length (image_ops page) <= 3) pages /\
    Forall (fun py => (80 <= snd py <= 600)%Z) (flat_map image_ops pages).
Proof.
  intros w.
  apply (report_pagination (fun _ => true) "s1"
           {| user_id := "token"; vehicle_make := "Toyota"; vehicle_model := "Corolla";
              vehicle_year := 2020; status := "complete";
              created_at := "2024-05-01T10:00:00" |} w).
  vm_compute. reflexivity.
Defined.

Lemma first_page_draw (hdr : list draw_op) (op : draw_op) (c : canvas) :
  (exists rest more, (shown c ++ [current c])%list = (hdr ++ rest)%list :: more) ->
  exists rest more,
    (shown (Canvas.draw op c) ++ [current (Canvas.draw op c)])%list = (hdr ++ rest)%list :: more.
Proof.
  intros (rest & more & E). cbn [Canvas.draw shown current].
  destruct (shown c) as [|page pages]; cbn [app] in *.
  - injection E as E <-. exists (rest ++ [op])%list, []. rewrite E, app_assoc. reflexivity.
  - injection E as -> <-. eexists rest, _. reflexivity.
Qed.

Lemma first_page_showPage (hdr : list draw_op) (c : canvas) :
  (exists rest more, (shown c ++ [current c])%list = (hdr ++ rest)%list :: more) ->
  exists rest more,
    (shown (Canvas.showPage c) ++ [current (Canvas.showPage c)])%list
    = (hdr ++ rest)%list :: more.
Proof.
  intros (rest & more & E). cbn [Canvas.showPage shown current].
  rewrite E. exists rest, (more ++ [[]])%list. reflexivity.
Qed.

Lemma first_page_report_block (hdr : list draw_op) (is_image : list Byte.byte -> bool)
    (fs : gmap string file_data) (height : Z) (st : canvas * Z) (img : submission_image) :
  (exists rest more, (shown (fst st) ++ [current (fst st)])%list = (hdr ++ rest)%list :: more) ->
  exists rest more,
    (shown (fst (report_block is_image fs height st img)) ++
     [current (fst (report_block is_image fs height st img))])%list
    = (hdr ++ rest)%list :: more.
Proof.
  destruct st as [c y]. cbn [fst]. intros H. unfold report_block.
  destruct (y <? 200)%Z; destruct (image_readable is_image fs (image_path img)); cbn [fst];
    repeat apply first_page_draw; try apply first_page_showPage; exact H.
Qed.

Lemma first_page_fold (hdr : list draw_op) (is_image : list Byte.byte -> bool)
    (fs : gmap string file_data) (height : Z) (images : list submission_image)
    (st : canvas * Z) :
  (exists rest more, (shown (fst st) ++ [current (fst st)])%list = (hdr ++ rest)%list :: more) ->
  exists rest more,
    (shown (fst (fold_left (report_block is_image fs height) images st)) ++
     [current (fst (fold_left (report_block is_image fs height) images st))])%list
    = (hdr ++ rest)%list :: more.
Proof.
  revert st. induction images as [|img images IH]; intros st H; cbn [fold_left];
    [exact H | apply IH, first_page_report_block, H].
Qed.

(** X12: The report of an existing submission is answered with the path of the
    saved file; the tables, the call log and every other file are left
    alone, and the first page of the saved report opens with the title,
    the submission id, the vehicle as "year make model" and the creation
    date. *)
Theorem report_saved_with_header (is_image : list Byte.byte -> bool) (sid : string)
    (row : submission) (w : world) :
  submissions (db w) !! sid = Some row ->
  let result := get_submission_report is_image sid w in
  fst result = Returns {| f_path := "reports/" ++ sid ++ ".pdf";
                          f_filename := "insurance_report_" ++ sid ++ ".pdf" |} /\
  db (snd result) = db w /\ chat_log (snd result) = chat_log w /\
  (forall p : string, p <> "reports/" ++ sid ++ ".pdf" -> files (snd result) !! p = files w !! p) /\
  exists (rest : list draw_op) (more : list (list draw_op)),
    files (snd result) !! ("reports/" ++ sid ++ ".pdf") =
      Some (Pdf (([SetFont "Helvetica-Bold" 16;
                   DrawString 72 720 "Vehicle Insurance Inspection Report";
                   SetFont "Helvetica" 12;
                   DrawString 72 692 ("Submission ID: " ++ sid);
                   DrawString 72 672 ("Vehicle: " ++ pretty (vehicle_year row) ++ " "
                                      ++ vehicle_make row ++ " " ++ vehicle_model row);
                   DrawString 72 652 ("Submission Date: " ++ created_at row)] ++ rest)%list
                 :: more)).
Proof.
  intros Hrow result. subst result.
  rewrite (get_submission_report_existing is_image sid row w Hrow).
  cbn [fst snd set_files files db chat_log]. fold (report_path sid).
  split; [reflexivity | split; [reflexivity | split; [reflexivity | split]]].
  - intros p Hp. apply lookup_insert_ne. congruence.
  - rewrite lookup_insert_eq. unfold report_pages, report_canvas.
    destruct (first_page_fold (header_ops sid row) is_image (files w) (snd letter)
                (Sql.images_of sid (db w)) (report_header sid row, (snd letter - 180)%Z))
      as (rest & more & E).
    { exists [], []. cbn [fst]. rewrite app_nil_r. reflexivity. }
    exists rest. unfold Canvas.saved_pages.
    destruct (current (fst (fold_left _ _ _))) as [|op ops] eqn:Hcur.
    + destruct (shown (fst (fold_left _ _ _))) as [|page pages] eqn:Hshown.
      * cbn [app] in E. injection E as E _. symmetry in E. discriminate E.
      * cbn [app] in E. injection E as -> _. exists pages. reflexivity.
    + exists more. rewrite E. reflexivity.
Qed.

Lemma report_saved_with_header_witness :
  let w := serve initial_world [demo_create] in
  fst (get_submission_report (fun _ => true) "s1" w)
  = Returns {| f_path := "reports/s1.pdf"; f_filename := "insurance_report_s1.pdf" |} /\
  db (snd (get_submission_report (fun _ => true) "s1" w)) = db w.
Proof.
  intros w.
  destruct (report_saved_with_header (fun _ => true) "s1"
              {| user_id := "token"; vehicle_make := "Toyota"; vehicle_model := "Corolla";
                 vehicle_year := 2020; status := "pending";
                 created_at := "2024-05-01T10:00:00" |} w eq_refl) as (H1 & H2 & _).
  split; [exact H1 | exact H2].
Defined.

Lemma report_block_ext (is_image : list Byte.byte -> bool) (fs fs' : gmap string file_data)
    (height : Z) (st : canvas * Z) (img : submission_image) :
  image_readable is_image fs' (image_path img) = image_readable is_image fs (image_path img) ->
  report_block is_image fs' height st img = report_block is_image fs height st img.
Proof. intros H. unfold report_block. rewrite H. reflexivity. Qed.

Lemma fold_report_block_ext (is_image : list Byte.byte -> bool) (fs fs' : gmap string file_data)
    (height : Z) (images : list submission_image) (st : canvas * Z) :
  (forall img, In img images ->
     image_readable is_image fs' (image_path img) = image_readable is_image fs (image_path img)) ->
  fold_left (report_block is_image fs' height) images st =
  fold_left (report_block is_image fs height) images st.
Proof.
  revert st. induction images as [|img images IH]; intros st H; cbn [fold_left]; [reflexivity |].
  rewrite (report_block_ext is_image fs fs') by (apply H; left; reflexivity).
  apply IH. intros img' Hin. apply H. right. exact Hin.
Qed.

(** X13: Reports are regenerated, not accumulated: in every state the
    application reaches, asking for the same report a second time gives
    the same answer as the first time and changes nothing any more. *)
Theorem report_twice_same (rqs : list request) (is_image : list Byte.byte -> bool)
    (sid : string) :
  let first := get_submission_report is_image sid (serve initial_world rqs) in
  get_submission_report is_image sid (snd first) = first.
Proof.
  intros first. subst first. set (w := serve initial_world rqs).
  destruct (submissions (db w) !! sid) as [row|] eqn:Hrow.
  - rewrite (get_submission_report_existing is_image sid row w Hrow). cbn [snd].
    set (w' := set_files _ w).
    rewrite (get_submission_report_existing is_image sid row w' Hrow).
    assert (Hpages : report_pages is_image sid row w' = report_pages is_image sid row w).
    { unfold report_pages, report_canvas. f_equal. f_equal.
      change (db w') with (db w).
      apply fold_report_block_ext. intros img Hin.
      assert (Hok : image_row_ok w img).
      { destruct (serve_store_invariant rqs) as [_ Hall]. fold w in Hall.
        rewrite Forall_forall in Hall. apply Hall, list_elem_of_In.
        unfold Sql.images_of in Hin. apply filter_In in Hin as [Hin _]. exact Hin. }
      destruct Hok as (_ & _ & [file Hpath] & _).
      unfold image_readable, w'. cbn [set_files files].
      rewrite lookup_insert_ne; [reflexivity |].
      rewrite Hpath. intros Heq. symmetry in Heq. apply upload_path_not_report in Heq. exact Heq. }
    rewrite Hpages. unfold w'. f_equal.
    unfold set_files. cbn [files db chat_log]. rewrite insert_insert_eq. reflexivity.
  - rewrite (get_submission_report_missing is_image sid w Hrow). cbn [snd].
    apply get_submission_report_missing, Hrow.
Qed.

(** ** Creating a submission *)

Lemma images_of_unreferenced (sid : string) (w : world) :
  referenced sid w = false -> Sql.images_of sid (db w) = [].
Proof.
  intros H. apply referenced_false_count in H. unfold image_count in H.
  destruct (Sql.images_of sid (db w)); [reflexivity | discriminate H].
Qed.

(** X14: Creating a submission, with a vehicle year that fits the 64-bit
    INTEGER of SQLite, under an id that is not in use answers with that
    id, the status "pending" and the eight requirements; it stores one
    pending row owned by the token as given and touches nothing else; and
    the report of the new submission can be requested at once: it is a
    single page holding the header only. *)
Theorem create_then_report (env : create_env) (data : Body.SubmissionCreate)
    (token : string) (is_image : list Byte.byte -> bool) (w : world) :
  let sid := submission_uuid4 env in
  Sql.fits_integer (Body.vehicle_year data) = true ->
  submissions (db w) !! sid = None ->
  referenced sid w = false ->
  let created := create_submission env data token w in
  let row := {| user_id := token; vehicle_make := Body.vehicle_make data;
                vehicle_model := Body.vehicle_model data;
                vehicle_year := Body.vehicle_year data;
                status := "pending"; created_at := now_isoformat env |} in
  fst created = Returns {| c_id := sid; c_status := "pending";
                           c_required_images := IMAGE_REQUIREMENTS |} /\
  submissions (db (snd created)) = <[sid := row]> (submissions (db w)) /\
  submission_images (db (snd created)) = submission_images (db w) /\
  files (snd created) = files w /\ chat_log (snd created) = chat_log w /\
  files (snd (get_submission_report is_image sid (snd created))) !! ("reports/" ++ sid ++ ".pdf")
  = Some (Pdf [[SetFont "Helvetica-Bold" 16;
                DrawString 72 720 "Vehicle Insurance Inspection Report";
                SetFont "Helvetica" 12;
                DrawString 72 692 ("Submission ID: " ++ sid);
                DrawString 72 672 ("Vehicle: " ++ pretty (Body.vehicle_year data) ++ " "
                                   ++ Body.vehicle_make data ++ " " ++ Body.vehicle_model data);
                DrawString 72 652 ("Submission Date: " ++ now_isoformat env)]]).
Proof.
  intros sid Hyear Hnone Hunref created row. subst created.
  assert (E : create_submission env data token w =
              (Returns {| c_id := sid; c_status := "pending";
                          c_required_images := IMAGE_REQUIREMENTS |},
               set_db {| submissions := <[sid := row]> (submissions (db w));
                         submission_images := submission_images (db w) |} w)).
  { unfold create_submission, bind, with_db, Sql.insert_submission. fold sid.
    cbn [vehicle_year]. rewrite Hyear, Hnone. reflexivity. }
  rewrite E. cbn [fst snd set_db db files chat_log submissions submission_images].
  repeat (split; [reflexivity |]).
  set (w1 := set_db _ w).
  assert (Hrow : submissions (db w1) !! sid = Some row) by apply lookup_insert_eq.
  rewrite (get_submission_report_existing is_image sid row w1 Hrow).
  cbn [snd set_files files]. fold (report_path sid). rewrite lookup_insert_eq.
  unfold report_pages, report_canvas.
  assert (Himgs : Sql.images_of sid (db w1) = []).
  { apply images_of_unreferenced. exact Hunref. }
  rewrite Himgs. reflexivity.
Qed.

Lemma create_then_report_witness :
  let env := {| submission_uuid4 := "s1"; now_isoformat := "2024-05-01T10:00:00" |} in
  let data := {| Body.vehicle_make := "Toyota"; Body.vehicle_model := "Corolla";
                 Body.vehicle_year := 2020 |} in
  fst (create_submission env data "token" initial_world)
  = Returns {| c_id := "s1"; c_status := "pending"; c_required_images := IMAGE_REQUIREMENTS |} /\
  chat_log (snd (create_submission env data "token" initial_world)) = [].
Proof.
  intros env data.
  destruct (create_then_report env data "token" (fun _ => true) initial_world
              eq_refl eq_refl eq_refl)
    as (H1 & _ & _ & _ & H2 & _).
  split; [exact H1 | exact H2].
Defined.

(** ** What a successful upload answers *)

Lemma startswith_slash_app (s t : string) :
  PyStr.startswith "/" s = false -> PyStr.startswith "/" (s ++ "_" ++ t) = false.
Proof. destruct s as [|c s]; [reflexivity |]. rewrite append_cons. cbn. intros H; exact H. Qed.

(** X15: The answer to a successful upload describes the row that was appended:
    the same id, valid exactly when the row says "yes", the same reason;
    the row belongs to the submission and image type of the request, the
    uploaded bytes are stored at the row's path, and (the submission id not
    starting with a slash) the returned URL is that path under "/". *)
Theorem upload_response_matches_row (env : upload_env) (sid ty : string) (file : UploadFile)
    (w : world) :
  known_image_type ty = true ->
  storage env = NoFault ->
  image_id_taken (image_uuid4 env) w = false ->
  let result := upload_image env sid ty file w in
  exists (r : upload_response) (row : submission_image),
    fst result = Returns r /\
    submission_images (db (snd result)) = (submission_images (db w) ++ [row])%list /\
    r_id r = id row /\ id row = image_uuid4 env /\
    (r_valid r = true <-> validation_result row = "yes") /\
    r_reason r = validation_reason row /\
    submission_id row = sid /\ image_type row = ty /\
    files (snd result) !! image_path row = Some (Bytes (file_bytes file)) /\
    (PyStr.startswith "/" sid = false ->
     image_path row = "uploads/" ++ sid ++ "_" ++ ty ++ snd (OsPath.splitext (filename file)) /\
     r_image_url r = "/" ++ image_path row).
Proof.
  intros Hknown Hstorage Hfresh result. subst result.
  destruct (upload_image_known env sid ty file w Hknown Hstorage) as (v & prompt & _ & _ & E).
  rewrite Hfresh in E. rewrite E. cbn [fst snd].
  eexists _, (uploaded_row env sid ty file v).
  cbn [r_id r_valid r_reason r_image_url uploaded_row id validation_result validation_reason
       submission_id image_type image_path].
  split; [reflexivity |]. split; [reflexivity |]. split; [reflexivity |].
  split; [reflexivity |]. split; [| split; [reflexivity |]].
  { destruct (valid v); split; intros H; try reflexivity; discriminate H. }
  split; [reflexivity |]. split; [reflexivity |]. split.
  - unfold set_db, after_chat, after_write, log_chat, set_files. cbn [files].
    apply lookup_insert_eq.
  - intros Hsid. unfold upload_filepath, OsPath.join.
    fold (upload_filename sid ty file).
    assert (Hname : PyStr.startswith "/" (upload_filename sid ty file) = false).
    { unfold upload_filename. apply startswith_slash_app, Hsid. }
    rewrite Hname. split; reflexivity.
Qed.

Lemma upload_response_matches_row_witness :
  let result := upload_image (demo_env "i1" "No plate visible") "s1" "back" demo_file
                  initial_world in
  exists (r : upload_response) (row : submission_image),
    fst result = Returns r /\
    (r_valid r = true <-> validation_result row = "yes") /\
    r_reason r = validation_reason row /\
    r_image_url r = "/" ++ image_path row.
Proof.
  intros result.
  destruct (upload_response_matches_row (demo_env "i1" "No plate visible") "s1" "back"
              demo_file initial_world eq_refl eq_refl eq_refl)
    as (r & row & H1 & _ & _ & _ & H2 & H3 & _ & _ & _ & H4).
  exists r, row. split; [exact H1 | split; [exact H2 | split; [exact H3 |]]].
  apply (H4 eq_refl).
Defined.

(** ** The extension taken from the client's file name *)

Lemma rfind_None (c : ascii) (s : string) :
  PyStr.rfind c s = None -> ~ In c (list_ascii_of_string s).
Proof.
  induction s as [|a s IH]; cbn [PyStr.rfind list_ascii_of_string]; [intros _ [] |].
  destruct (PyStr.rfind c s); [discriminate |].
  destruct (Ascii.eqb a c) eqn:E; [discriminate |].
  intros _ [Ha | Hin]; [subst a; rewrite Ascii.eqb_refl in E; discriminate E | apply IH; auto].
Qed.

Lemma In_drop (c : ascii) (n : nat) (s : string) :
  In c (list_ascii_of_string (PyStr.drop n s)) -> In c (list_ascii_of_string s).
Proof.
  revert s. induction n as [|n IH]; intros s; [destruct s; auto |].
  destruct s as [|a s]; cbn [PyStr.drop list_ascii_of_string]; [auto |].
  intros H. right. apply IH, H.
Qed.

Lemma rfind_Some_after (c : ascii) (s : string) (i n : nat) :
  PyStr.rfind c s = Some i -> i < n -> ~ In c (list_ascii_of_string (PyStr.drop n s)).
Proof.
  revert i n. induction s as [|a s IH]; intros i n; cbn [PyStr.rfind]; [discriminate |].
  destruct (PyStr.rfind c s) as [j|] eqn:Ej.
  - intros [= <-] Hlt. destruct n as [|n]; [lia |]. cbn [PyStr.drop].
    apply (IH j n eq_refl). lia.
  - destruct (Ascii.eqb a c); [| discriminate]. intros [= <-] Hlt.
    destruct n as [|n]; [lia |]. cbn [PyStr.drop].
    intros Hin. apply (rfind_None c s Ej). apply (In_drop c n s Hin).
Qed.

Lemma rfind_Some_drop (c : ascii) (s : string) (i : nat) :
  PyStr.rfind c s = Some i -> exists rest : string, PyStr.drop i s = String c rest.
Proof.
  revert i. induction s as [|a s IH]; intros i; cbn [PyStr.rfind]; [discriminate |].
  destruct (PyStr.rfind c s) as [j|] eqn:Ej.
  - intros [= <-]. cbn [PyStr.drop]. apply IH. reflexivity.
  - destruct (Ascii.eqb a c) eqn:E; [| discriminate]. intros [= <-].
    apply Ascii.eqb_eq in E. subst a. exists s. reflexivity.
Qed.

Lemma take_drop (n : nat) (s : string) : PyStr.take n s ++ PyStr.drop n s = s.
Proof.
  revert s. induction n as [|n IH]; intros s; [destruct s; reflexivity |].
  destruct s as [|a s]; [reflexivity |]. cbn [PyStr.take PyStr.drop].
  rewrite append_cons, IH. reflexivity.
Qed.

(** X16: Of the file name that the client sends, only the extension reaches
    the name under which the upload is stored, and that extension is
    harmless: it is a suffix of the client's name, it is empty or begins
    with a dot, and it contains no slash. *)
Theorem upload_extension_is_safe (sid ty : string) (file : UploadFile) :
  exists root ext : string,
    upload_filename sid ty file = sid ++ "_" ++ ty ++ ext /\
    filename file = root ++ ext /\
    (ext = "" \/ exists rest : string, ext = String "." rest) /\
    ~ In "/"%char (list_ascii_of_string ext).
Proof.
  unfold upload_filename.
  exists (fst (OsPath.splitext (filename file))), (snd (OsPath.splitext (filename file))).
  split; [reflexivity |].
  unfold OsPath.splitext. set (p := filename file).
  destruct (PyStr.rfind "." p) as [dotIndex|] eqn:Hdot.
  2:{ cbn [fst snd]. split; [symmetry; apply append_nil_r |].
      split; [left; reflexivity | intros []]. }
  set (filenameIndex := match PyStr.rfind "/" p with Some i => S i | None => 0 end).
  destruct ((filenameIndex <=? dotIndex)%nat &&
            negb (PyStr.all_char "." (PyStr.take (dotIndex - filenameIndex)
                                                 (PyStr.drop filenameIndex p)))) eqn:Hcond.
  2:{ cbn [fst snd]. split; [symmetry; apply append_nil_r |].
      split; [left; reflexivity | intros []]. }
  cbn [fst snd]. apply andb_true_iff in Hcond as [Hle _]. apply Nat.leb_le in Hle.
  split; [symmetry; apply take_drop |]. split.
  - right. apply (rfind_Some_drop _ _ _ Hdot).
  - unfold filenameIndex in Hle. destruct (PyStr.rfind "/" p) as [i|] eqn:Hslash.
    + apply (rfind_Some_after _ _ _ _ Hslash). lia.
    + intros Hin. apply (rfind_None _ _ Hslash). apply (In_drop _ _ _ Hin).
Qed.

(** ** Failures after the file is written, and the status codes *)

(** X17: An upload whose image id is already taken is refused by the primary
    key: the request fails with a server error and the transaction is
    rolled back, so no row is added and no status changes; the file has
    been written and the model has been called by then. *)
Theorem upload_id_collision_rolls_back (env : upload_env) (sid ty : string)
    (file : UploadFile) (w : world) :
  known_image_type ty = true ->
  storage env = NoFault ->
  image_id_taken (image_uuid4 env) w = true ->
  let result := upload_image env sid ty file w in
  fst result = Raises (PyError "IntegrityError"
                         "UNIQUE constraint failed: submission_images.id") /\
  http_status (fst result) = 500 /\
  db (snd result) = db w /\
  files (snd result) !! upload_filepath sid ty file = Some (Bytes (file_bytes file)) /\
  length (chat_log (snd result)) = S (length (chat_log w)).
Proof.
  intros Hknown Hstorage Htaken result. subst result.
  destruct (upload_image_known env sid ty file w Hknown Hstorage) as (v & prompt & _ & _ & E).
  rewrite Htaken in E. rewrite E. cbn [fst snd http_status].
  unfold after_chat, after_write, log_chat, set_files. cbn [db files chat_log].
  rewrite lookup_insert_eq, length_app. cbn [length].
  repeat split. lia.
Qed.

Lemma upload_id_collision_rolls_back_witness :
  let w := snd (upload_image (demo_env "i1" "yes") "s1" "front" demo_file initial_world) in
  let result := upload_image (demo_env "i1" "yes") "s1" "back" demo_file w in
  http_status (fst result) = 500 /\ db (snd result) = db w.
Proof.
  intros w result.
  destruct (upload_id_collision_rolls_back (demo_env "i1" "yes") "s1" "back" demo_file w
              eq_refl eq_refl eq_refl) as (_ & H1 & H2 & _).
  split; [exact H1 | exact H2].
Defined.

(** X18: The two endpoints that answer with JSON give 200, 400 or 500 and
    nothing else: creating a submission never gives a client error, and
    an upload gives the client error 400 exactly when its image type is
    not on the whitelist. *)
Theorem status_codes (w : world) :
  (forall (env : create_env) (data : Body.SubmissionCreate) (token : string),
      let code := http_status (fst (create_submission env data token w)) in
      code = 200 \/ code = 500) /\
  (forall (env : upload_env) (sid ty : string) (file : UploadFile),
      let code := http_status (fst (upload_image env sid ty file w)) in
      (code = 200 \/ code = 400 \/ code = 500) /\
      (code = 400 <-> known_image_type ty = false)).
Proof.
  split.
  - intros env data token code. subst code.
    unfold create_submission, bind, with_db, Sql.insert_submission.
    destruct (negb (Sql.fits_integer _)); [right; reflexivity |].
    destruct (submissions (db w) !! submission_uuid4 env); [right | left]; reflexivity.
  - intros env sid ty file code. subst code.
    destruct (known_image_type ty) eqn:Hknown.
    + assert (H : http_status (fst (upload_image env sid ty file w)) = 200 \/
                  http_status (fst (upload_image env sid ty file w)) = 500).
      { destruct (storage env) eqn:Hstorage.
        - destruct (upload_image_known env sid ty file w Hknown Hstorage)
            as (v & prompt & _ & _ & ->).
          destruct (image_id_taken (image_uuid4 env) w); [right | left]; reflexivity.
        - destruct (upload_image_fault env sid ty file w Hknown) as (m & fs & -> & _);
            [rewrite Hstorage; discriminate | right; reflexivity].
        - destruct (upload_image_fault env sid ty file w Hknown) as (m & fs & -> & _);
            [rewrite Hstorage; discriminate | right; reflexivity]. }
      split; [destruct H as [-> | ->]; auto |].
      split; [destruct H as [-> | ->]; discriminate | discriminate].
    + rewrite upload_image_unknown by exact Hknown. cbn [fst http_status].
      split; [auto | split; reflexivity].
Qed.

(** ** Stored uploads stay where the rows say *)

Lemma chars_app (a b : string) :
  list_ascii_of_string (a ++ b) = (list_ascii_of_string a ++ list_ascii_of_string b)%list.
Proof.
  induction a as [|c a IH]; [reflexivity |].
  rewrite append_cons. cbn [list_ascii_of_string]. rewrite IH. reflexivity.
Qed.

Lemma slash_free_app (a b : string) :
  slash_free (a ++ b) = slash_free a && slash_free b.
Proof.
  unfold slash_free, PyStr.has_char. rewrite chars_app, existsb_app, negb_orb. reflexivity.
Qed.

Lemma slash_free_spec (s : string) :
  slash_free s = true <-> ~ In "/"%char (list_ascii_of_string s).
Proof.
  unfold slash_free, PyStr.has_char. rewrite negb_true_iff. split.
  - intros H Hin.
    assert (E : existsb (Ascii.eqb "/") (list_ascii_of_string s) = true).
    { apply existsb_exists. exists "/"%char. split; [exact Hin | reflexivity]. }
    congruence.
  - intros H. destruct (existsb _ _) eqn:E; [| reflexivity].
    apply existsb_exists in E as (c & Hin & Hc). apply Ascii.eqb_eq in Hc. subst c.
    destruct (H Hin).
Qed.

Lemma slash_free_startswith (s : string) :
  slash_free s = true -> PyStr.startswith "/" s = false.
Proof.
  destruct s as [|c s]; [reflexivity |].
  unfold slash_free, PyStr.has_char. cbn [list_ascii_of_string existsb PyStr.startswith].
  rewrite negb_true_iff, orb_false_iff. intros [H _]. rewrite H. reflexivity.
Qed.

Lemma known_image_type_slash_free (ty : string) :
  known_image_type ty = true -> slash_free ty = true.
Proof.
  intros H. apply known_image_type_spec in H. cbn in H.
  repeat (destruct H as [<- | H]; [reflexivity |]). destruct H.
Qed.

Lemma splitext_ext_slash_free (p : string) : slash_free (snd (OsPath.splitext p)) = true.
Proof.
  apply slash_free_spec. unfold OsPath.splitext.
  destruct (PyStr.rfind "." p) as [dotIndex|] eqn:Hdot; [| intros []].
  set (filenameIndex := match PyStr.rfind "/" p with Some i => S i | None => 0 end).
  destruct ((filenameIndex <=? dotIndex)%nat &&
            negb (PyStr.all_char "." (PyStr.take (dotIndex - filenameIndex)
                                                 (PyStr.drop filenameIndex p)))) eqn:Hcond;
    [| intros []].
  cbn [snd]. apply andb_true_iff in Hcond as [Hle _]. apply Nat.leb_le in Hle.
  unfold filenameIndex in Hle. destruct (PyStr.rfind "/" p) as [i|] eqn:Hslash.
  - apply (rfind_Some_after _ _ _ _ Hslash). lia.
  - intros Hin. apply (rfind_None _ _ Hslash). apply (In_drop _ _ _ Hin).
Qed.

(** For a submission id without a slash the upload path is a name
    directly inside the upload folder. *)
Lemma upload_filepath_plain (sid ty : string) (file : UploadFile) :
  slash_free sid = true -> known_image_type ty = true ->
  upload_filepath sid ty file = "uploads/" ++ upload_filename sid ty file /\
  slash_free (upload_filename sid ty file) = true.
Proof.
  intros Hsid Hty.
  assert (Hname : slash_free (upload_filename sid ty file) = true).
  { unfold upload_filename. rewrite !slash_free_app, Hsid.
    rewrite (known_image_type_slash_free _ Hty), splitext_ext_slash_free. reflexivity. }
  split; [| exact Hname].
  unfold upload_filepath, OsPath.join. rewrite (slash_free_startswith _ Hname). reflexivity.
Qed.

Lemma handle_rows_slash_free (rq : request) (w : world) :
  slash_free_ids [rq] = true ->
  Forall (fun row => slash_free (submission_id row) = true) (submission_images (db w)) ->
  Forall (fun row => slash_free (submission_id row) = true)
    (submission_images (db (snd (handle rq w)))).
Proof.
  intros Hrq Hall.
  destruct rq as [env data token | env sid ty file | is_image sid];
    unfold handle; rewrite snd_bind_ret.
  - rewrite create_submission_effect.
    destruct (negb (Sql.fits_integer (Body.vehicle_year data))); [exact Hall |].
    destruct (submissions (db w) !! submission_uuid4 env); exact Hall.
  - destruct (upload_image_db env sid ty file w) as [E | [v E]]; rewrite E; [exact Hall |].
    unfold after_insert. cbn [submission_images]. apply Forall_app. split; [exact Hall |].
    apply Forall_singleton. cbn [uploaded_row submission_id].
    cbn [slash_free_ids forallb] in Hrq. rewrite andb_true_r in Hrq. exact Hrq.
  - rewrite get_submission_report_db. exact Hall.
Qed.

Lemma serve_rows_slash_free (rqs : list request) (w : world) :
  slash_free_ids rqs = true ->
  Forall (fun row => slash_free (submission_id row) = true) (submission_images (db w)) ->
  Forall (fun row => slash_free (submission_id row) = true)
    (submission_images (db (serve w rqs))).
Proof.
  unfold serve. revert w. induction rqs as [|rq rqs IH]; intros w Hrqs Hall;
    cbn [fold_left]; [exact Hall |].
  cbn [slash_free_ids forallb] in Hrqs. apply andb_true_iff in Hrqs as [Hrq Hrqs].
  apply IH; [exact Hrqs |]. apply handle_rows_slash_free; [| exact Hall].
  cbn [slash_free_ids forallb]. rewrite Hrq. reflexivity.
Qed.

(** X8: When no upload and no report names a submission id with a slash in
    it, every recorded image row points at a stored upload: its path is a
    name directly inside the upload folder, never a path into the report
    folder, and it holds uploaded bytes, whatever uploads, failed writes
    and reports came after the row. *)
Theorem recorded_image_has_file (rqs : list request) (row : submission_image) :
  slash_free_ids rqs = true ->
  In row (submission_images (db (serve initial_world rqs))) ->
  exists (name : string) (data : list Byte.byte),
    image_path row = "uploads/" ++ name /\
    slash_free name = true /\
    files (serve initial_world rqs) !! image_path row = Some (Bytes data).
Proof.
  intros Hids Hin. apply list_elem_of_In in Hin.
  destruct (serve_store_invariant rqs) as [_ Hall].
  rewrite Forall_forall in Hall.
  destruct (Hall row Hin) as (Hknown & _ & [file Hpath] & [data Hfile] & _).
  assert (Hsid : slash_free (submission_id row) = true).
  { assert (H := serve_rows_slash_free rqs initial_world Hids (Forall_nil_2 _)).
    rewrite Forall_forall in H. apply (H row Hin). }
  destruct (upload_filepath_plain (submission_id row) (image_type row) file Hsid Hknown)
    as [Hplain Hname].
  exists (upload_filename (submission_id row) (image_type row) file), data.
  split; [rewrite Hpath; exact Hplain | split; [exact Hname | exact Hfile]].
Qed.

Lemma recorded_image_has_file_witness :
  let rqs := demo_create :: uploads_to "s1" "front" (firstn 1 demo_fronts)
             ++ [GetReport (fun _ => true) "s1"] in
  slash_free_ids rqs = true /\
  In demo_row (submission_images (db (serve initial_world rqs))) /\
  exists (name : string) (data : list Byte.byte),
    image_path demo_row = "uploads/" ++ name /\
    slash_free name = true /\
    files (serve initial_world rqs) !! image_path demo_row = Some (Bytes data).
Proof.
  intros rqs.
  assert (Hids : slash_free_ids rqs = true) by reflexivity.
  assert (Hin : In demo_row (submission_images (db (serve initial_world rqs))))
    by (left; reflexivity).
  split; [exact Hids | split; [exact Hin |]].
  apply (recorded_image_has_file rqs demo_row Hids Hin).
Defined.

(** ** A vehicle year that SQLite cannot hold *)

(** X19: A submission whose vehicle year lies outside the signed 64-bit range
    is not created: binding the parameters of the INSERT raises
    OverflowError, the caller gets a server error, and nothing changes. *)
Theorem create_year_out_of_range (env : create_env) (data : Body.SubmissionCreate)
    (token : string) (w : world) :
  (Body.vehicle_year data < - 2 ^ 63 \/ 2 ^ 63 <= Body.vehicle_year data)%Z ->
  let created := create_submission env data token w in
  fst created = Raises (PyError "OverflowError"
                          "Python int too large to convert to SQLite INTEGER") /\
  http_status (fst created) = 500 /\
  snd created = w.
Proof.
  intros Hyear created. subst created.
  assert (Hfits : Sql.fits_integer (Body.vehicle_year data) = false).
  { unfold Sql.fits_integer. apply andb_false_iff.
    destruct Hyear as [H | H]; [left; apply Z.leb_gt; lia | right; apply Z.leb_gt; lia]. }
  unfold create_submission, bind, with_db, Sql.insert_submission. cbn [vehicle_year].
  rewrite Hfits. repeat split.
Qed.

Lemma create_year_out_of_range_witness :
  let data := {| Body.vehicle_make := "Toyota"; Body.vehicle_model := "Corolla";
                 Body.vehicle_year := 2 ^ 63 |} in
  let created := create_submission
                   {| submission_uuid4 := "s1"; now_isoformat := "2024-05-01T10:00:00" |}
                   data "token" initial_world in
  http_status (fst created) = 500 /\ snd created = initial_world.
Proof.
  intros data created.
  assert (Hyear : (Body.vehicle_year data < - 2 ^ 63 \/ 2 ^ 63 <= Body.vehicle_year data)%Z)
    by (right; cbn; lia).
  destruct (create_year_out_of_range
              {| submission_uuid4 := "s1"; now_isoformat := "2024-05-01T10:00:00" |}
              data "token" initial_world Hyear) as (_ & H1 & H2).
  split; [exact H1 | exact H2].
Defined.

(** ** The code on further small inputs *)

Example repr_plain : PyStr.repr "roof" = "'roof'".
Proof. reflexivity. Qed.

Example repr_apostrophe :
  PyStr.repr "it's" = String PyStr.dquote ("it's" ++ String PyStr.dquote "").
Proof. reflexivity. Qed.

Example repr_backslash_newline :
  PyStr.repr (String PyStr.backslash (String (ascii_of_N 10) (String (ascii_of_N 160) "")))
  = String PyStr.squote
      (String PyStr.backslash (String PyStr.backslash
         (String PyStr.backslash ("n" ++ String PyStr.backslash ("xa0" ++
            String PyStr.squote ""))))).
Proof. reflexivity. Qed.

Example capitalize_accent :
  PyStr.capitalize (String (ascii_of_N 233) "COLE") = String (ascii_of_N 201) "cole".
Proof. reflexivity. Qed.

Example year_overflow_no_row :
  status_of "s1"
    (serve initial_world
       [PostSubmission {| submission_uuid4 := "s1"; now_isoformat := "2024-05-01T10:00:00" |}
          {| Body.vehicle_make := "Toyota"; Body.vehicle_model := "Corolla";
             Body.vehicle_year := 2 ^ 63 |} "token"])
  = None.
Proof. vm_compute. reflexivity. Qed.
